(** * AIDE ADK: conversation routing and readiness engine

    A shallow embedding of the routing, classification, session-memory and
    readiness code of

      - [agent-server/agents/orchestrator.py]   (class [ADKOrchestrator])
      - [agent-server/storage/local_storage.py] (classes [ADKSession],
        [LocalStorage])
      - [config/settings.py]                    ([SESSION_CONFIG],
        [AGENT_CHAIN])

    Conventions of the embedding.

      - Python [str] is [string]; the theorems read it as 7-bit ASCII text.
        [str.lower] maps [A-Z] to [a-z], [str.strip] removes the ASCII
        characters for which [str.isspace] holds; other characters are left
        alone.
      - Dictionaries written as literals in the source and iterated in
        source order are association lists; dictionaries that are updated
        at run time (requirement maps, the project store, the session
        cache) are [gmap]s.
      - Operations of Python that can raise ([d[k]], [list.index], opening
        a project file that does not exist) return in the [result] type
        below; the raised exception is the error value.
      - Timestamps and message ids ([datetime.now()], [uuid4()], the event
        loop clock) are inputs named [now]: no theorem depends on them.
      - The on-disk JSON file of a project is the entry of the project in
        the [projects] map; writing the file is updating the entry. *)

From Stdlib Require Import ZArith Ascii String List Bool Lia.
From stdpp Require Import gmap strings list fin_maps pretty.

Local Open Scope string_scope.

(** ** Exceptions and fallible results *)

Inductive exn : Type :=
| KeyError (key : string)
| ValueError (msg : string)
| IndexError
| TypeError
| FileNotFoundError (project_id : string).

Inductive result (A : Type) : Type :=
| Ok (a : A)
| Raise (e : exn).

Arguments Ok {A} a.
Arguments Raise {A} e.

#[global] Instance result_ret : MRet result := @Ok.

#[global] Instance result_bind : MBind result := λ A B k r,
  match r with
  | Ok a => k a
  | Raise e => Raise e
  end.

(** ** Python string operations *)

Module PyStr.

Definition len (s : string) : nat := String.length s.

(** [bool(s)]: the empty string is falsy. *)
Definition truthy (s : string) : bool :=
  match s with
  | EmptyString => false
  | String _ _ => true
  end.

(** [c.isspace()] on ASCII: TAB, LF, VT, FF, CR, the separators
    0x1c..0x1f and the space. *)
Definition is_space (c : ascii) : bool :=
  let n := nat_of_ascii c in
  ((9 <=? n)%nat && (n <=? 13)%nat) || ((28 <=? n)%nat && (n <=? 32)%nat).

Definition lower_char (c : ascii) : ascii :=
  let n := nat_of_ascii c in
  if (65 <=? n)%nat && (n <=? 90)%nat then ascii_of_nat (n + 32) else c.

Fixpoint lower (s : string) : string :=
  match s with
  | EmptyString => EmptyString
  | String c s' => String (lower_char c) (lower s')
  end.

Fixpoint lstrip (s : string) : string :=
  match s with
  | EmptyString => EmptyString
  | String c s' => if is_space c then lstrip s' else s
  end.

Fixpoint rstrip (s : string) : string :=
  match s with
  | EmptyString => EmptyString
  | String c s' =>
      match rstrip s' with
      | EmptyString => if is_space c then EmptyString else String c EmptyString
      | r => String c r
      end
  end.

Definition strip (s : string) : string := rstrip (lstrip s).

Fixpoint startswith (p s : string) : bool :=
  match p, s with
  | EmptyString, _ => true
  | String _ _, EmptyString => false
  | String a p', String b s' => Ascii.eqb a b && startswith p' s'
  end.

(** [needle in hay] on strings: substring test. *)
Fixpoint contains (needle hay : string) : bool :=
  startswith needle hay ||
  match hay with
  | EmptyString => false
  | String _ hay' => contains needle hay'
  end.

Fixpoint endswith (p s : string) : bool :=
  String.eqb p s ||
  match s with
  | EmptyString => false
  | String _ s' => endswith p s'
  end.

(** [s[:n]] for [0 <= n]. *)
Fixpoint take (n : nat) (s : string) : string :=
  match n, s with
  | O, _ => EmptyString
  | _, EmptyString => EmptyString
  | S n', String c s' => String c (take n' s')
  end.

(** [s.split(sep)] for a one-character separator. *)
Fixpoint split (sep : ascii) (s : string) : list string :=
  match s with
  | EmptyString => [EmptyString]
  | String c s' =>
      if Ascii.eqb c sep then EmptyString :: split sep s'
      else match split sep s' with
           | [] => [String c EmptyString]
           | w :: ws => String c w :: ws
           end
  end.

(** [sep.join(parts)]. *)
Fixpoint join (sep : string) (parts : list string) : string :=
  match parts with
  | [] => EmptyString
  | [p] => p
  | p :: ps => p ++ sep ++ join sep ps
  end.

(** [any(k in s for k in keys)]. *)
Definition any_in (keys : list string) (s : string) : bool :=
  existsb (fun k => contains k s) keys.

(** [x in xs] for a list of strings. *)
Definition mem (x : string) (xs : list string) : bool :=
  existsb (String.eqb x) xs.

End PyStr.

(** A dictionary literal, in source order. *)
Definition dict (V : Type) : Type := list (string * V).

Fixpoint dict_lookup {V : Type} (d : dict V) (k : string) : option V :=
  match d with
  | [] => None
  | (k', v) :: d' => if String.eqb k k' then Some v else dict_lookup d' k
  end.

(** [d.get(k, default)]. *)
Definition dict_get {V : Type} (d : dict V) (k : string) (default : V) : V :=
  match dict_lookup d k with
  | Some v => v
  | None => default
  end.

(** [d[k]]. *)
Definition dict_item {V : Type} (d : dict V) (k : string) : result V :=
  match dict_lookup d k with
  | Some v => Ok v
  | None => Raise (KeyError k)
  end.

Definition dict_keys {V : Type} (d : dict V) : list string := map fst d.

Definition newline : string := String "010"%char EmptyString.

(** [xs[start:]] for a Python list and any integer [start]: a negative
    [start] counts from the end and is clamped at the front, a [start] past
    the end gives the empty list. *)
Definition slice_from {A : Type} (start : Z) (xs : list A) : list A :=
  if (start <? 0)%Z
  then drop (Z.to_nat (Z.max 0 (Z.of_nat (length xs) + start))) xs
  else drop (Z.to_nat start) xs.

(** [xs.index(x)]: position of the first occurrence, [ValueError] when
    there is none. *)
Fixpoint list_index (x : string) (xs : list string) : result nat :=
  match xs with
  | [] => Raise (ValueError (x ++ " is not in list"))
  | y :: ys => if String.eqb y x then Ok 0 else n ← list_index x ys; Ok (S n)
  end.

(** [xs[i]] for [0 <= i]. *)
Definition list_item {A : Type} (xs : list A) (i : nat) : result A :=
  match xs !! i with
  | Some x => Ok x
  | None => Raise IndexError
  end.

(** ** config/settings.py *)

Module settings.

Inductive value : Type :=
| VInt (n : Z)
| VBool (b : bool)
| VStr (s : string).

Definition SESSION_CONFIG : dict value :=
  [ ("timeout", VInt 3600);
    ("max_sessions", VInt 100);
    ("cleanup_interval", VInt 300);
    ("memory_limit", VInt 10);
    ("max_messages", VInt 50);
    ("session_cleanup", VBool true) ].

Definition AGENT_CHAIN : list string :=
  [ "requirements_evolver";
    "ux_architect";
    "ui_designer";
    "frontend_engineer";
    "data_architect";
    "api_designer";
    "devops" ].

(** The integer a configuration value stands for in [n > v] and
    [v // 2]; Python's [bool] is an [int], a string is a [TypeError]. *)
Definition as_int (v : value) : result Z :=
  match v with
  | VInt n => Ok n
  | VBool b => Ok (if b then 1%Z else 0%Z)
  | VStr _ => Raise TypeError
  end.

(** [v == s] for a string literal [s]. *)
Definition eq_str (v : value) (s : string) : bool :=
  match v with
  | VStr s' => String.eqb s' s
  | _ => false
  end.

End settings.

(** ** Data model *)

Definition time : Type := nat.

(** A message dictionary of a turn log. [message_id] is set in the session
    log only. *)
Record Turn : Type := mkTurn {
  role : string;
  message : string;
  agent : option string;
  timestamp : time;
  message_id : option string
}.

Inductive spec_value : Type :=
| SpecBool (b : bool)
| SpecStr (s : string)
| SpecList (l : list string).

(** The dictionary [_extract_requirements_enhanced] stores per agent. *)
Record RequirementRecord : Type := mkRequirement {
  full_response : string;
  user_message : string;
  summary : string;
  technical_specs : gmap string spec_value;
  req_timestamp : time;
  req_agent : string;
  has_substance : bool
}.

(** The project file. [active_agent] is read with a default, so it is
    optional here; an absent [requirements] key reads as the empty map.
    [session_metadata], which [get_project] recomputes from the session on
    every read and nothing in the orchestrator reads, is left out. *)
Record Project : Type := mkProject {
  id : string;
  name : string;
  created_at : time;
  updated_at : time;
  status : string;
  requirements : gmap string RequirementRecord;
  messages : list Turn;
  active_agent : option string
}.

(** An entry of [ADKSession.agent_states]; the last three fields are the
    keys that the callers of [update_agent_state] add. *)
Record AgentState : Type := mkAgentState {
  interaction_count : nat;
  last_interaction : option time;
  requirements_provided : bool;
  last_message : option string;
  activated_at : option time;
  last_requirements_update : option time
}.

Record ADKSession : Type := mkSession {
  session_project_id : string;
  session_messages : list Turn;
  agent_states : gmap string AgentState;
  last_activity : time
}.

Record LocalStorage : Type := mkStorage {
  projects : gmap string Project;
  sessions : gmap string ADKSession
}.

(** ** storage/local_storage.py: [ADKSession] *)

Module Session.

Definition init (project_id : string) (now : time) : ADKSession :=
  {| session_project_id := project_id;
     session_messages := [];
     agent_states := ∅;
     last_activity := now |}.

Definition set_messages (s : ADKSession) (ms : list Turn) : ADKSession :=
  {| session_project_id := session_project_id s;
     session_messages := ms;
     agent_states := agent_states s;
     last_activity := last_activity s |}.

(** [_compact_context], on the configuration it is run with. The session
    is assigned to only on the last line, so a raised exception leaves it
    as it was. *)
Definition _compact_context (cfg : dict settings.value) (s : ADKSession)
  : result ADKSession :=
  max_messages ← dict_item cfg "max_messages" ≫= settings.as_int;
  if (max_messages <? Z.of_nat (length (session_messages s)))%Z then
    strategy ← dict_item cfg "compaction_strategy";
    if settings.eq_str strategy "recent" then
      max_messages' ← dict_item cfg "max_messages" ≫= settings.as_int;
      let keep_count := (max_messages' `div` 2)%Z in
      Ok (set_messages s (slice_from (- keep_count) (session_messages s)))
    else Ok s
  else Ok s.

(** [add_message]: the turn is appended before compaction runs, so it
    stays in the log when compaction raises. *)
Definition add_message (cfg : dict settings.value) (now : time) (mid : string)
    (s : ADKSession) (role message : string) (agent : option string)
  : ADKSession * result () :=
  let message_data :=
    {| role := role; message := message; agent := agent;
       timestamp := now; message_id := Some mid |} in
  let s1 :=
    {| session_project_id := session_project_id s;
       session_messages := session_messages s ++ [message_data];
       agent_states := agent_states s;
       last_activity := now |} in
  match _compact_context cfg s1 with
  | Ok s2 => (s2, Ok ())
  | Raise e => (s1, Raise e)
  end.

(** [get_recent_context(limit)]: [self.messages[-limit:]]. *)
Definition get_recent_context (s : ADKSession) (limit : Z) : list Turn :=
  slice_from (- limit) (session_messages s).

Definition default_agent_state : AgentState :=
  {| interaction_count := 0;
     last_interaction := None;
     requirements_provided := false;
     last_message := None;
     activated_at := None;
     last_requirements_update := None |}.

(** [get_agent_state]: the state is created on first access. *)
Definition get_agent_state (s : ADKSession) (agent_name : string)
  : ADKSession * AgentState :=
  match agent_states s !! agent_name with
  | Some st => (s, st)
  | None =>
      ({| session_project_id := session_project_id s;
          session_messages := session_messages s;
          agent_states := <[agent_name := default_agent_state]> (agent_states s);
          last_activity := last_activity s |},
       default_agent_state)
  end.

(** [update_agent_state]: [updates] is the effect of [state.update(...)]. *)
Definition update_agent_state (now : time) (s : ADKSession)
    (agent_name : string) (updates : AgentState → AgentState) : ADKSession :=
  let '(s1, state) := get_agent_state s agent_name in
  let state1 := updates state in
  let state2 :=
    {| interaction_count := S (interaction_count state1);
       last_interaction := Some now;
       requirements_provided := requirements_provided state1;
       last_message := last_message state1;
       activated_at := activated_at state1;
       last_requirements_update := last_requirements_update state1 |} in
  {| session_project_id := session_project_id s1;
     session_messages := session_messages s1;
     agent_states := <[agent_name := state2]> (agent_states s1);
     last_activity := last_activity s1 |}.

End Session.

(** ** storage/local_storage.py: [LocalStorage]

    Every operation takes the store and returns the store it leaves
    behind, also when it raises: what was written before the exception
    stays written. *)

Module Storage.

Definition set_session (st : LocalStorage) (pid : string) (s : ADKSession)
  : LocalStorage :=
  {| projects := projects st; sessions := <[pid := s]> (sessions st) |}.

Definition set_project (st : LocalStorage) (pid : string) (p : Project)
  : LocalStorage :=
  {| projects := <[pid := p]> (projects st); sessions := sessions st |}.

(** [_get_session]: get or create. *)
Definition _get_session (now : time) (st : LocalStorage) (pid : string)
  : LocalStorage * ADKSession :=
  match sessions st !! pid with
  | Some s => (st, s)
  | None => let s := Session.init pid now in (set_session st pid s, s)
  end.

Definition get_project (st : LocalStorage) (pid : string) : result Project :=
  match projects st !! pid with
  | Some p => Ok p
  | None => Raise (FileNotFoundError pid)
  end.

Definition touch (now : time) (p : Project) : Project :=
  {| id := id p; name := name p; created_at := created_at p;
     updated_at := now; status := status p;
     requirements := requirements p; messages := messages p;
     active_agent := active_agent p |}.

(** [update_project]; [updates] is the effect of [project_data.update]. *)
Definition update_project (now : time) (st : LocalStorage) (pid : string)
    (updates : Project → Project) : LocalStorage * result () :=
  match get_project st pid with
  | Raise e => (st, Raise e)
  | Ok project_data => (set_project st pid (touch now (updates project_data)), Ok ())
  end.

Definition with_active_agent (a : string) (p : Project) : Project :=
  {| id := id p; name := name p; created_at := created_at p;
     updated_at := updated_at p; status := status p;
     requirements := requirements p; messages := messages p;
     active_agent := Some a |}.

Definition with_requirement (a : string) (r : RequirementRecord) (p : Project)
  : Project :=
  {| id := id p; name := name p; created_at := created_at p;
     updated_at := updated_at p; status := status p;
     requirements := <[a := r]> (requirements p); messages := messages p;
     active_agent := active_agent p |}.

Definition with_message (m : Turn) (p : Project) : Project :=
  {| id := id p; name := name p; created_at := created_at p;
     updated_at := updated_at p; status := status p;
     requirements := requirements p; messages := messages p ++ [m];
     active_agent := active_agent p |}.

Definition set_last_message (m : string) (a : AgentState) : AgentState :=
  {| interaction_count := interaction_count a;
     last_interaction := last_interaction a;
     requirements_provided := requirements_provided a;
     last_message := Some m;
     activated_at := activated_at a;
     last_requirements_update := last_requirements_update a |}.

Definition set_activated_at (now : time) (a : AgentState) : AgentState :=
  {| interaction_count := interaction_count a;
     last_interaction := last_interaction a;
     requirements_provided := requirements_provided a;
     last_message := last_message a;
     activated_at := Some now;
     last_requirements_update := last_requirements_update a |}.

Definition set_requirements_provided (now : time) (a : AgentState) : AgentState :=
  {| interaction_count := interaction_count a;
     last_interaction := last_interaction a;
     requirements_provided := true;
     last_message := last_message a;
     activated_at := activated_at a;
     last_requirements_update := Some now |}.

(** [add_message]: session first, then the project file. *)
Definition add_message (cfg : dict settings.value) (now : time) (mid : string)
    (st : LocalStorage) (pid role message : string) (agent : option string)
  : LocalStorage * result () :=
  let '(st1, session) := _get_session now st pid in
  let '(session1, r) := Session.add_message cfg now mid session role message agent in
  let st2 := set_session st1 pid session1 in
  match r with
  | Raise e => (st2, Raise e)
  | Ok _ =>
      let st3 :=
        match agent with
        | Some a =>
            if PyStr.truthy a
            then set_session st2 pid
                   (Session.update_agent_state now session1 a
                      (set_last_message (PyStr.take 100 message)))
            else st2
        | None => st2
        end in
      match get_project st3 pid with
      | Raise e => (st3, Raise e)
      | Ok project_data =>
          let message_data :=
            {| role := role; message := message; agent := agent;
               timestamp := now; message_id := None |} in
          (set_project st3 pid (touch now (with_message message_data project_data)),
           Ok ())
      end
  end.

Definition get_conversation_context (now : time) (st : LocalStorage)
    (pid : string) (limit : Z) : LocalStorage * list Turn :=
  let '(st1, session) := _get_session now st pid in
  (st1, Session.get_recent_context session limit).

(** [update_requirements]: last write for an agent wins. *)
Definition update_requirements (now : time) (st : LocalStorage)
    (pid agent_name : string) (req : RequirementRecord)
  : LocalStorage * result () :=
  match get_project st pid with
  | Raise e => (st, Raise e)
  | Ok project_data =>
      let project_data1 := touch now (with_requirement agent_name req project_data) in
      let '(st1, session) := _get_session now st pid in
      let st2 := set_session st1 pid
                   (Session.update_agent_state now session agent_name
                      (set_requirements_provided now)) in
      (set_project st2 pid project_data1, Ok ())
  end.

Definition set_active_agent (now : time) (st : LocalStorage)
    (pid agent_name : string) : LocalStorage * result () :=
  match update_project now st pid (with_active_agent agent_name) with
  | (st1, Raise e) => (st1, Raise e)
  | (st1, Ok _) =>
      let '(st2, session) := _get_session now st1 pid in
      (set_session st2 pid
         (Session.update_agent_state now session agent_name (set_activated_at now)),
       Ok ())
  end.

(** [create_project]; [project_id] is the identifier drawn from
    [uuid4()]. The session is initialised first, then the project file is
    written, over an older file of the same identifier if there is one. *)
Definition create_project (now : time) (project_id : string) (st : LocalStorage)
    (name : string) : LocalStorage * string :=
  let '(st1, _) := _get_session now st project_id in
  let project_data :=
    {| id := project_id; name := name; created_at := now; updated_at := now;
       status := "active"; requirements := ∅; messages := [];
       active_agent := Some "requirements_evolver" |} in
  (set_project st1 project_id project_data, project_id).

(** [cleanup_project]: the project file and the session are removed; the
    method swallows every exception. *)
Definition cleanup_project (st : LocalStorage) (project_id : string) : LocalStorage :=
  {| projects := delete project_id (projects st);
     sessions := delete project_id (sessions st) |}.

(** [get_conversation_history]: the same window as
    [get_conversation_context]. *)
Definition get_conversation_history (now : time) (st : LocalStorage)
    (pid : string) (limit : Z) : LocalStorage * list Turn :=
  let '(st1, session) := _get_session now st pid in
  (st1, Session.get_recent_context session limit).

(** [get_session_stats]: [None] stands for [{"active_session": False}]. *)
Definition get_session_stats (st : LocalStorage) (project_id : string)
  : option (nat * nat * time * gmap string nat) :=
  match sessions st !! project_id with
  | None => None
  | Some session =>
      Some (length (session_messages session),
            size (agent_states session),
            last_activity session,
            interaction_count <$> agent_states session)
  end.

End Storage.

(** ** agents/orchestrator.py: [ADKOrchestrator] *)

(** What [adk_manager.run_agent_with_instructions], and the body of the
    [try] block of [_run_single_agent] around it, did in a turn: it
    returned a dictionary, of which the orchestrator reads the keys
    [success] and [response], or raised an exception [e], of which it
    reads [str(e)]. The executor is external; its outcome is an input of
    the turn. *)
Record exec_dict : Type := mkExec {
  success : option bool;
  response : option string
}.

Inductive exec_outcome : Type :=
| Returns (d : exec_dict)
| Raises (str_e : string).

Record RouteResult : Type := mkRouteResult {
  route_message_text : string;
  route_agent : string;
  should_generate : bool
}.

Record GenerationStatus : Type := mkStatus {
  can_generate : bool;
  substantial_agents : nat;
  agent_contributions : list string;
  status_has_minimal_requirements : bool;
  status_message : string
}.

Record ADKOrchestrator : Type := mkOrchestrator {
  storage : LocalStorage;
  agent_chain : list string;
  agent_progress : gmap string (gset string)
}.

Module Orchestrator.

Definition init (st : LocalStorage) : ADKOrchestrator :=
  {| storage := st;
     agent_chain := settings.AGENT_CHAIN;
     agent_progress := ∅ |}.

Definition set_storage (o : ADKOrchestrator) (st : LocalStorage) : ADKOrchestrator :=
  {| storage := st; agent_chain := agent_chain o;
     agent_progress := agent_progress o |}.

(** *** Substance classifier *)

Definition early_agents : list string :=
  ["requirements_evolver"; "ux_architect"; "ui_designer"].

Definition question_phrases : list string :=
  ["what would"; "can you"; "please provide"; "could you tell me"].

Definition technical_indicators : dict (list string) :=
  [ ("frontend_engineer",
      ["javascript"; "framework"; "component"; "interaction";
       "functionality"; "implementation"]);
    ("data_architect",
      ["database"; "storage"; "data"; "schema"; "table"; "model"]);
    ("api_designer",
      ["endpoint"; "api"; "rest"; "backend"; "route"; "request"; "response"]);
    ("devops",
      ["deployment"; "hosting"; "server"; "cloud"; "domain"; "ssl";
       "environment"]);
    ("code_generator",
      ["import"; "def "; "class "; "function"; "const "; "let "; "app.route"]) ].

Definition _has_substantial_content (response agent_name : string) : bool :=
  if negb (PyStr.truthy response) || (PyStr.len (PyStr.strip response) <? 25)%nat
  then false
  else
    let response_clean := PyStr.strip response in
    if PyStr.mem agent_name early_agents then
      let is_pure_question :=
        PyStr.endswith "?" response_clean &&
        (PyStr.len response_clean <? 80)%nat &&
        PyStr.any_in question_phrases (PyStr.lower response_clean) in
      (30 <=? PyStr.len response_clean)%nat && negb is_pure_question
    else
      let agent_indicators := dict_get technical_indicators agent_name [] in
      let has_technical_content :=
        PyStr.any_in agent_indicators (PyStr.lower response_clean) in
      (40 <=? PyStr.len response_clean)%nat && has_technical_content.

(** *** Requirement extraction *)

(** The [for] loop of [_create_intelligent_summary], with its [break]. *)
Fixpoint meaningful_lines (acc : list string) (lines : list string) : list string :=
  match lines with
  | [] => acc
  | line :: rest =>
      let stripped := PyStr.strip line in
      if PyStr.truthy stripped &&
         negb (PyStr.startswith "#" stripped || PyStr.startswith "//" stripped
               || PyStr.startswith "/*" stripped) &&
         (10 <? PyStr.len stripped)%nat
      then
        let acc' := (acc ++ [stripped])%list in
        if (150 <? PyStr.len (PyStr.join newline acc'))%nat
        then acc'
        else meaningful_lines acc' rest
      else meaningful_lines acc rest
  end.

Definition _create_intelligent_summary (response : string) : string :=
  if (PyStr.len response <=? 200)%nat then response
  else
    let lines := PyStr.split "010"%char response in
    let summary := PyStr.join newline (meaningful_lines [] lines) in
    if (200 <? PyStr.len summary)%nat
    then PyStr.take 197 summary ++ "..."
    else summary.

Definition is_hex (c : ascii) : bool :=
  let n := nat_of_ascii c in
  ((48 <=? n)%nat && (n <=? 57)%nat) ||
  ((65 <=? n)%nat && (n <=? 70)%nat) ||
  ((97 <=? n)%nat && (n <=? 102)%nat).

Fixpoint hex_run (n : nat) (s : string) : bool :=
  match n, s with
  | O, _ => true
  | S _, EmptyString => false
  | S n', String c s' => is_hex c && hex_run n' s'
  end.

(** [re.findall(r'#([a-fA-F0-9]{6}|[a-fA-F0-9]{3})', s)]: the groups of
    the leftmost non-overlapping matches; [skip] characters are still
    part of the previous match. *)
Fixpoint find_colors (skip : nat) (s : string) : list string :=
  match s with
  | EmptyString => []
  | String c s' =>
      match skip with
      | S k => find_colors k s'
      | O =>
          if Ascii.eqb c "#"%char then
            if hex_run 6 s' then PyStr.take 6 s' :: find_colors 6 s'
            else if hex_run 3 s' then PyStr.take 3 s' :: find_colors 3 s'
            else find_colors 0 s'
          else find_colors 0 s'
      end
  end.

Definition _extract_technical_specs (response agent_name : string)
  : gmap string spec_value :=
  let response_lower := PyStr.lower response in
  let has k := PyStr.contains k response_lower in
  let specs0 : gmap string spec_value := ∅ in
  let specs1 := if has "responsive" || has "mobile"
                then <["responsive" := SpecBool true]> specs0 else specs0 in
  let specs2 := if has "modern"
                then <["style" := SpecStr "modern"]> specs1 else specs1 in
  let specs3 := if has "minimal" || has "clean"
                then <["style" := SpecStr "minimal"]> specs2 else specs2 in
  let specs4 := if has "dark" && has "theme"
                then <["theme" := SpecStr "dark"]> specs3 else specs3 in
  let specs5 := if has "light" && has "theme"
                then <["theme" := SpecStr "light"]> specs4 else specs4 in
  if String.eqb agent_name "ui_designer" then
    match find_colors 0 response with
    | [] => specs5
    | colors =>
        <["colors" := SpecList (map (fun color => "#" ++ color) (firstn 3 colors))]>
          specs5
    end
  else specs5.

(** [_extract_requirements_enhanced]: the record is stored for every
    response it is given; the returned flag is the substance verdict. *)
Definition _extract_requirements_enhanced (now : time) (st : LocalStorage)
    (project_id agent_name response user_message : string)
  : LocalStorage * result bool :=
  let has_substance := _has_substantial_content response agent_name in
  let requirements :=
    {| full_response := response;
       user_message := user_message;
       summary := _create_intelligent_summary response;
       technical_specs := _extract_technical_specs response agent_name;
       req_timestamp := now;
       req_agent := agent_name;
       has_substance := has_substance |} in
  match Storage.update_requirements now st project_id agent_name requirements with
  | (st1, Raise e) => (st1, Raise e)
  | (st1, Ok _) => (st1, Ok has_substance)
  end.

(** *** Routing policy *)

Definition approval_keywords : list string :=
  [ "approved"; "perfect"; "looks good"; "proceed"; "move forward";
    "next phase"; "next agent"; "switch to"; "yes"; "sure"; "go ahead";
    "continue"; "next"; "ready"; "sounds good" ].

Definition approval_progression : dict string :=
  [ ("requirements_evolver", "ux_architect");
    ("ux_architect", "ui_designer");
    ("ui_designer", "frontend_engineer");
    ("frontend_engineer", "data_architect");
    ("data_architect", "api_designer");
    ("api_designer", "devops") ].

Definition agent_keywords : dict (list string) :=
  [ ("requirements_evolver",
      ["requirements"; "what i want"; "project goal"; "objective"]);
    ("ux_architect",
      ["navigate"; "user flow"; "ux"; "experience"; "usability";
       "interface"; "flow"; "navigation"; "user journey"]);
    ("ui_designer",
      ["change design"; "change color"; "ui design"; "ui"; "design";
       "color"; "style"; "theme"; "look"; "appearance"]);
    ("data_architect",
      ["database"; "data"; "store"; "save"; "storage"; "persist"; "db";
       "sql"; "information"]);
    ("api_designer",
      ["api"; "backend"; "server"; "endpoint"; "rest"; "json"; "backend";
       "server-side"]);
    ("frontend_engineer",
      ["javascript"; "react"; "vue"; "frontend"; "client"; "browser";
       "technical"; "implementation"; "code"; "functionality"]);
    ("devops",
      ["deploy"; "host"; "server"; "domain"; "production"; "cloud";
       "hosting"; "deployment"; "server"]) ].

(** The loop [for agent_name, keywords in agent_keywords.items()] with
    its [return]: the first entry, in the order of the literal, one of
    whose keywords occurs in the message. *)
Fixpoint first_keyword_match (table : dict (list string)) (message_lower : string)
  : option string :=
  match table with
  | [] => None
  | (agent_name, keywords) :: rest =>
      if PyStr.any_in keywords message_lower then Some agent_name
      else first_keyword_match rest message_lower
  end.

Definition agent_is (current_agent : string) (msg : Turn) : bool :=
  match agent msg with
  | Some a => String.eqb a current_agent
  | None => false
  end.

(** The progress-based part of [_determine_next_agent]. *)
Definition progress_switch (chain : list string) (current_agent : string)
    (project_data : Project) : result string :=
  if PyStr.mem current_agent chain then
    current_index ← list_index current_agent chain;
    let current_has_contributed :=
      match requirements project_data !! current_agent with
      | Some r => has_substance r
      | None => false
      end in
    let message_count :=
      length (List.filter (agent_is current_agent) (messages project_data)) in
    if (current_has_contributed || (2 <=? message_count)%nat) &&
       (Z.of_nat current_index <? Z.of_nat (length chain) - 1)%Z
    then list_item chain (current_index + 1)
    else Ok current_agent
  else Ok current_agent.

Definition topic_switch (chain : list string) (current_agent message_lower : string)
    (project_data : Project) : result string :=
  match first_keyword_match agent_keywords message_lower with
  | Some agent_name => Ok agent_name
  | None => progress_switch chain current_agent project_data
  end.

Definition _determine_next_agent (chain : list string)
    (current_agent user_message : string) (project_data : Project)
  : result string :=
  let message_lower := PyStr.lower user_message in
  if PyStr.any_in approval_keywords message_lower then
    if PyStr.mem current_agent (dict_keys approval_progression) then
      dict_item approval_progression current_agent
    else topic_switch chain current_agent message_lower project_data
  else topic_switch chain current_agent message_lower project_data.

(** *** Running the agent *)

Definition _run_single_agent (outcome : exec_outcome) : string :=
  match outcome with
  | Raises str_e =>
      "I encountered an issue. Please try again. Error: " ++ str_e
  | Returns d =>
      if default false (success d) then
        match response d with
        | Some r => r
        | None =>
            (* [result['response']] raises [KeyError], caught below it *)
            "I encountered an issue. Please try again. Error: " ++ "'response'"
        end
      else
        let error_msg := default "Unknown error occurred" (response d) in
        "I encountered an issue while processing your request. Please try again. Error: "
          ++ error_msg
  end.

(** *** The facade *)

Definition start_conversation (now : time) (o : ADKOrchestrator)
    (project_id : string) : ADKOrchestrator * result () :=
  match Storage.set_active_agent now (storage o) project_id "requirements_evolver" with
  | (st1, Raise e) => (set_storage o st1, Raise e)
  | (st1, Ok _) =>
      ({| storage := st1; agent_chain := agent_chain o;
          agent_progress := <[project_id := ∅]> (agent_progress o) |}, Ok ())
  end.

Definition route_message (now : time) (o : ADKOrchestrator)
    (project_id user_message : string) (outcome : exec_outcome)
  : ADKOrchestrator * result RouteResult :=
  match Storage.get_project (storage o) project_id with
  | Raise e => (o, Raise e)
  | Ok project_data =>
      let current_agent := default "requirements_evolver" (active_agent project_data) in
      match _determine_next_agent (agent_chain o) current_agent user_message project_data with
      | Raise e => (o, Raise e)
      | Ok next_agent =>
          let '(st1, r1) :=
            if negb (String.eqb next_agent current_agent)
            then Storage.set_active_agent now (storage o) project_id next_agent
            else (storage o, Ok ()) in
          match r1 with
          | Raise e => (set_storage o st1, Raise e)
          | Ok _ =>
              let current_agent := next_agent in
              let agent_response := _run_single_agent outcome in
              match _extract_requirements_enhanced now st1 project_id current_agent
                      agent_response user_message with
              | (st2, Raise e) => (set_storage o st2, Raise e)
              | (st2, Ok requirements_updated) =>
                  let progress :=
                    match agent_progress o !! project_id with
                    | Some done_agents =>
                        if requirements_updated
                        then <[project_id := {[current_agent]} ∪ done_agents]>
                               (agent_progress o)
                        else agent_progress o
                    | None => agent_progress o
                    end in
                  ({| storage := st2; agent_chain := agent_chain o;
                      agent_progress := progress |},
                   Ok {| route_message_text := agent_response;
                         route_agent := current_agent;
                         should_generate := false |})
              end
          end
      end
  end.

(** *** Readiness gate *)

Definition _has_minimal_requirements (project_data : Project) : bool :=
  let requirements := requirements project_data in
  let substantial_agents :=
    sum_list (map (fun _ => 1)
                (List.filter has_substance (map snd (map_to_list requirements)))) in
  let has_requirements_evolver :=
    match requirements !! "requirements_evolver" with
    | Some r => has_substance r
    | None => false
    end in
  (3 <=? substantial_agents)%nat ||
  (has_requirements_evolver && (2 <=? substantial_agents)%nat) ||
  (4 <=? substantial_agents)%nat.

Definition _get_generation_status_message (can_generate : bool)
    (substantial_agents : nat) : string :=
  if can_generate then
    "Ready to generate! Collected substantial requirements from "
      ++ pretty substantial_agents ++ " agents."
  else if (substantial_agents =? 0)%nat then
    "Please describe your project requirements first."
  else if (substantial_agents =? 1)%nat then
    "Getting there! A bit more detail about design or functionality would help."
  else if (substantial_agents =? 2)%nat then
    "Making progress! A few more details about your preferences would be great."
  else
    "Almost ready! We have " ++ pretty substantial_agents
      ++ " agents with good requirements.".

(** The counting loop of [can_generate_code]; the contributions are
    listed in the order the map enumerates its entries, where the code
    lists them in the insertion order of the dictionary: the list is the
    same up to its order, and no property below reads that order. *)
Definition count_step (acc : nat * list string) (item : string * RequirementRecord)
  : nat * list string :=
  if has_substance item.2 then (S acc.1, (acc.2 ++ [item.1])%list) else acc.

Definition can_generate_code (o : ADKOrchestrator) (project_id : string)
  : result GenerationStatus :=
  project_data ← Storage.get_project (storage o) project_id;
  let requirements := requirements project_data in
  let '(substantial_agents, agent_contributions) :=
    foldl count_step (0, []) (map_to_list requirements) in
  let has_minimal_requirements := _has_minimal_requirements project_data in
  Ok {| can_generate := has_minimal_requirements;
        substantial_agents := substantial_agents;
        agent_contributions := agent_contributions;
        status_has_minimal_requirements := has_minimal_requirements;
        status_message :=
          _get_generation_status_message has_minimal_requirements substantial_agents |}.

End Orchestrator.

(** ** agents/core/adk_components.py: [ADKManager]

    The manager is modelled by the names of its registered agents and
    runners. What a runner does for one call, [_ensure_session_exists],
    [_run_agent_async] and the event stream behind it, is external: it
    either answers with a text or raises. *)



Inductive runner_outcome : Type :=
| Answers (text : string)
| Fails (str_e : string).

(** An entry of the list [run_sequential_agents] returns. *)
Record AgentResult : Type := mkAgentResult {
  result_agent : string;
  result_response : string;
  result_has_agent_info : bool
}.

Record ADKManager : Type := mkManager {
  agents : gset string;
  runners : gset string
}.

Module ADK.

Definition default_agents : list string :=
  [ "requirements_evolver"; "ux_architect"; "ui_designer"; "frontend_engineer";
    "data_architect"; "api_designer"; "devops"; "code_generator" ].

(** [__init__]: [_register_default_agents], then a runner for every
    agent. *)
Definition init : ADKManager :=
  {| agents := list_to_set default_agents; runners := list_to_set default_agents |}.

Definition register_agent (m : ADKManager) (name : string) : ADKManager :=
  {| agents := {[name]} ∪ agents m; runners := {[name]} ∪ runners m |}.

(** [agent_name in self.agents and agent_name in self.runners]. *)
Definition registered (m : ADKManager) (agent_name : string) : bool :=
  bool_decide (agent_name ∈ agents m) && bool_decide (agent_name ∈ runners m).





(** [run_agent_with_instructions], on what the runner does. *)
Definition run_agent_with_instructions (m : ADKManager) (agent_name : string)
    (run : runner_outcome) : exec_outcome :=
  if negb (registered m agent_name)
  then Raises ("Agent '" ++ agent_name ++ "' not found")
  else
    match run with
    | Answers response_text =>
        Returns {| success := Some true; response := Some response_text |}
    | Fails str_e =>
        Returns {| success := Some false; response := Some ("Error: " ++ str_e) |}
    end.

(** [run_single_agent]: the same outcomes. *)
Definition run_single_agent (m : ADKManager) (agent_name : string)
    (run : runner_outcome) : exec_outcome :=
  run_agent_with_instructions m agent_name run.

(** [run_sequential_agents]; [run i] is what the runner does for the
    agent at position [i] of the chain. *)
Fixpoint run_sequential_from (m : ADKManager) (run : nat → runner_outcome)
    (i : nat) (agent_chain : list string) : list AgentResult :=
  match agent_chain with
  | [] => []
  | agent_name :: rest =>
      let result :=
        if registered m agent_name then
          match run i with
          | Answers response_text => mkAgentResult agent_name response_text true
          | Fails str_e =>
              mkAgentResult agent_name
                ("Agent '" ++ agent_name ++ "' encountered an error: " ++ str_e) false
          end
        else mkAgentResult agent_name ("Agent '" ++ agent_name ++ "' is not available.")
               false in
      result :: run_sequential_from m run (S i) rest
  end.

Definition run_sequential_agents (m : ADKManager) (run : nat → runner_outcome)
    (agent_chain : list string) : list AgentResult :=
  run_sequential_from m run 0 agent_chain.

End ADK.

(** ** main.py: [ADKAIDEServer]

    The server holds an orchestrator and a [LocalStorage] of its own. The
    two stores read and write the same project files and keep separate
    session caches: the project files are those of the orchestrator's
    store below, [server_sessions] is the cache of the server's store.
    What the server sends over the socket is the list it returns; the
    socket itself does not fail here. *)

Inductive Sent : Type :=
| SentAgentResponse (message agent : string)
| SentGenerationStatus (project_id : string) (status : GenerationStatus)
| SentError (text : string) (cause : option exn).

Record ADKAIDEServer : Type := mkServer {
  orchestrator : ADKOrchestrator;
  server_sessions : gmap string ADKSession
}.

Module Server.

(** The server's own store. *)
Definition view (sv : ADKAIDEServer) : LocalStorage :=
  {| projects := projects (storage (orchestrator sv));
     sessions := server_sessions sv |}.

(** The server after its own store has become [st]: the project files
    are shared with the orchestrator. *)
Definition put (sv : ADKAIDEServer) (st : LocalStorage) : ADKAIDEServer :=
  {| orchestrator :=
       Orchestrator.set_storage (orchestrator sv)
         {| projects := projects st;
            sessions := sessions (storage (orchestrator sv)) |};
     server_sessions := sessions st |}.

(** [send_error(f"ADK Failed to process message: {str(e)}")]; the
    exception stands for its text. *)
Definition failed (e : exn) : Sent :=
  SentError "ADK Failed to process message: " (Some e).

(** [handle_user_message]; [project_id] and [message] are the two keys of
    the request, which may be missing. *)
Definition handle_user_message (now : time) (mid_user mid_agent : string)
    (sv : ADKAIDEServer) (project_id message : option string)
    (outcome : exec_outcome) : ADKAIDEServer * list Sent :=
  let user_message := default EmptyString message in
  if negb (PyStr.truthy (default EmptyString project_id))
  then (sv, [SentError "No project ID provided" None])
  else
    let pid := default EmptyString project_id in
    let '(st1, r1) :=
      Storage.add_message settings.SESSION_CONFIG now mid_user (view sv) pid
        "user" user_message None in
    let sv1 := put sv st1 in
    match r1 with
    | Raise e => (sv1, [failed e])
    | Ok _ =>
        let '(o2, r2) :=
          Orchestrator.route_message now (orchestrator sv1) pid user_message outcome in
        let sv2 := {| orchestrator := o2; server_sessions := server_sessions sv1 |} in
        match r2 with
        | Raise e => (sv2, [failed e])
        | Ok agent_response =>
            let '(st3, r3) :=
              Storage.add_message settings.SESSION_CONFIG now mid_agent (view sv2) pid
                "agent" (route_message_text agent_response) None in
            let sv3 := put sv2 st3 in
            match r3 with
            | Raise e => (sv3, [failed e])
            | Ok _ =>
                let reply :=
                  SentAgentResponse (route_message_text agent_response)
                    (route_agent agent_response) in
                match Orchestrator.can_generate_code (orchestrator sv3) pid with
                | Raise e => (sv3, [reply; failed e])
                | Ok status => (sv3, [reply; SentGenerationStatus pid status])
                end
            end
        end
    end.

End Server.

(** ** agents/integration_agent.py: planning the project structure *)

Module Integration.

Definition _get_essential_structure : list string :=
  [ "app.py"; "requirements.txt"; "templates/index.html";
    "static/css/style.css"; "static/js/app.js"; "README.md" ].

Definition path_mapping : dict string :=
  [ ("style.css", "static/css/style.css");
    ("app.js", "static/js/app.js");
    ("index.html", "templates/index.html");
    ("scripts.js", "static/js/app.js");
    ("styles.css", "static/css/style.css");
    ("main.py", "app.py");
    ("server.py", "app.py") ].

Definition _normalize_file_path (file_path : string) : string :=
  dict_get path_mapping file_path file_path.

Definition conflict_groups : dict (list string) :=
  [ ("index.html", ["index.html"; "templates/index.html"; "templates/home.html"]);
    ("style.css",
      ["style.css"; "static/css/style.css"; "styles.css"; "static/css/styles.css"]);
    ("app.js",
      ["app.js"; "static/js/app.js"; "scripts.js"; "static/js/scripts.js"; "main.js"]) ].

(** The path that stands for a conflict group: the first one under
    [templates/] or [static/], else the first of the group (no group of
    the table is empty). *)
Definition preferred_path (conflict_group : list string) : string :=
  match List.filter
          (fun f => PyStr.startswith "templates/" f || PyStr.startswith "static/" f)
          conflict_group with
  | p :: _ => p
  | [] => hd EmptyString conflict_group
  end.

(** The inner loop of [_resolve_file_conflicts] with its [break]: the
    first group of the table that holds the path. *)
Fixpoint find_group (groups : dict (list string)) (file_path : string)
  : option (string * list string) :=
  match groups with
  | [] => None
  | (group_name, conflict_group) :: rest =>
      if PyStr.mem file_path conflict_group then Some (group_name, conflict_group)
      else find_group rest file_path
  end.

Fixpoint resolve_loop (file_list resolved_files : list string) (used_groups : gset string)
  : list string :=
  match file_list with
  | [] => resolved_files
  | file_path :: rest =>
      match find_group conflict_groups file_path with
      | Some (group_name, conflict_group) =>
          if bool_decide (group_name ∈ used_groups)
          then resolve_loop rest resolved_files used_groups
          else resolve_loop rest
                 (resolved_files ++ [preferred_path conflict_group])%list
                 ({[group_name]} ∪ used_groups)
      | None =>
          if PyStr.mem file_path resolved_files
          then resolve_loop rest resolved_files used_groups
          else resolve_loop rest (resolved_files ++ [file_path])%list used_groups
      end
  end.

Definition _resolve_file_conflicts (file_list : list string) : list string :=
  resolve_loop file_list [] ∅.

Definition valid_extensions : list string :=
  [".py"; ".html"; ".css"; ".js"; ".json"; ".md"; ".txt"; ".yml"; ".yaml"; ".env"].

Definition code_patterns : list string :=
  ["from "; "import "; "@app"; "def "; "class "; "<!DOCTYPE"; "// "; "/*"; "*/"].

Definition bracket_patterns : list string :=
  ["("; ")"; "{"; "}"; "["; "]"; "=="; "="].

Definition bad_chars : list string :=
  ["*"; "?"; String "034"%char EmptyString; "<"; ">"; "|"].

(** [s.split(sep)[0]] and [s.split(sep)[-1]]. *)
Definition first_part (sep : ascii) (s : string) : string :=
  hd EmptyString (PyStr.split sep s).

Definition last_part (sep : ascii) (s : string) : string :=
  List.last (PyStr.split sep s) EmptyString.

(** The body of the loop over the lines of the response: the normalised
    path a line stands for, if it passes the filters. *)
Definition line_path (raw_line : string) : option string :=
  let line := PyStr.strip raw_line in
  if negb (PyStr.truthy line) then None
  else if PyStr.any_in code_patterns line then None
  else if PyStr.any_in bracket_patterns line then None
  else if PyStr.startswith "#" line || PyStr.contains "://" line
          || PyStr.startswith "//" line then None
  else
    let clean_path := PyStr.strip (first_part "[" (first_part "#" line)) in
    if PyStr.truthy clean_path &&
       (PyStr.any_in valid_extensions clean_path ||
        (PyStr.contains "/" clean_path &&
         PyStr.contains "." (last_part "/" clean_path)))
    then
      if (PyStr.len clean_path <? 100)%nat &&
         negb (PyStr.any_in bad_chars clean_path) &&
         negb (PyStr.endswith "/" clean_path)
      then Some (_normalize_file_path clean_path)
      else None
    else None.

Fixpoint collect_paths (lines file_list : list string) : list string :=
  match lines with
  | [] => file_list
  | line :: rest =>
      match line_path line with
      | Some normalized_path =>
          if PyStr.mem normalized_path file_list
          then collect_paths rest file_list
          else collect_paths rest (file_list ++ [normalized_path])%list
      | None => collect_paths rest file_list
      end
  end.

(** The loop that adds the essential files that are missing. *)
Fixpoint add_missing (essential_files file_list : list string) : list string :=
  match essential_files with
  | [] => file_list
  | essential :: rest =>
      if PyStr.mem essential file_list
      then add_missing rest file_list
      else add_missing rest (file_list ++ [essential])%list
  end.

Definition _extract_file_list_deduplicated (response : string) : list string :=
  let lines := PyStr.split "010"%char (PyStr.strip response) in
  let file_list := collect_paths lines [] in
  let file_list := _resolve_file_conflicts file_list in
  add_missing _get_essential_structure file_list.

(** [plan_project_structure] for a stored project, on what the run of
    [code_generator] does; the name, the identifier and the requirement
    records of the project only enter the prompt and the session name,
    which go to the runner. *)
Definition plan_project_structure (m : ADKManager) (run : nat → runner_outcome)
  (project_data : Project) : list string :=
  match ADK.run_sequential_agents m run ["code_generator"] with
  | result :: _ => _extract_file_list_deduplicated (result_response result)
  | [] => _get_essential_structure
  end.

End Integration.

(** ** Notions of the specification

    The definitions below follow the words of the specification; the
    theorems compare them with the code above. *)

Module Spec.

(** The Agent Catalog: the conversational chain and the terminal
    code generator. *)
Definition catalog : list string :=
  (settings.AGENT_CHAIN ++ ["code_generator"])%list.

Definition technical_agents : list string :=
  ["frontend_engineer"; "data_architect"; "api_designer"; "devops";
   "code_generator"].

(** The message carries an approval keyword (case is ignored, as the
    router ignores it). *)
Definition has_approval_keyword (user_message : string) : Prop :=
  ∃ kw, In kw Orchestrator.approval_keywords ∧
        PyStr.contains kw (PyStr.lower user_message) = true.

(** The message carries a topic keyword of [agent_name]. *)
Definition topic_match (agent_name user_message : string) : bool :=
  PyStr.any_in (dict_get Orchestrator.agent_keywords agent_name [])
    (PyStr.lower user_message).

(** The message carries a topic keyword of some agent. *)
Definition mentions_topic (user_message : string) : bool :=
  PyStr.any_in (concat (map snd Orchestrator.agent_keywords))
    (PyStr.lower user_message).

(** The order in which the keyword table of the router lists the
    agents. *)
Definition keyword_order : list string :=
  [ "requirements_evolver"; "ux_architect"; "ui_designer";
    "data_architect"; "api_designer"; "frontend_engineer"; "devops" ].

(** [next] is the matching agent that comes first in [order]. *)
Definition wins_in_order (order : list string) (user_message next : string) : Prop :=
  ∃ i : nat, order !! i = Some next ∧ topic_match next user_message = true ∧
    ∀ (j : nat) (c : string),
      order !! j = Some c → topic_match c user_message = true → (i ≤ j)%nat.

(** The reply carries a domain keyword of a technical agent, in the text
    the classifier reads (trimmed, case ignored). *)
Definition has_domain_keyword (agent_name response : string) : Prop :=
  ∃ kw, In kw (dict_get Orchestrator.technical_indicators agent_name []) ∧
        PyStr.contains kw (PyStr.lower (PyStr.strip response)) = true.

(** [kw] neither begins nor ends with a blank, so trimming a text cannot
    cut an occurrence of it. *)
Definition starts_solid (kw : string) : bool :=
  match kw with
  | EmptyString => false
  | String c _ => negb (PyStr.is_space c)
  end.

Fixpoint ends_solid (kw : string) : bool :=
  match kw with
  | EmptyString => false
  | String c EmptyString => negb (PyStr.is_space c)
  | String _ kw' => ends_solid kw'
  end.

Definition trimmed_length (response : string) : nat :=
  PyStr.len (PyStr.strip response).

(** The number of RequirementRecords with [has_substance = true]. *)
Definition substantial_count (reqs : gmap string RequirementRecord) : nat :=
  size (filter (λ kv : string * RequirementRecord, has_substance kv.2 = true) reqs).

Definition evolver_has_substance (reqs : gmap string RequirementRecord) : Prop :=
  ∃ r, reqs !! "requirements_evolver" = Some r ∧ has_substance r = true.

(** The eligibility rule of the readiness gate. *)
Definition eligible (reqs : gmap string RequirementRecord) : Prop :=
  (3 ≤ substantial_count reqs)%nat ∨
  (evolver_has_substance reqs ∧ (2 ≤ substantial_count reqs)%nat) ∨
  (4 ≤ substantial_count reqs)%nat.

(** The executor failed: it raised, or its result does not report
    success. *)
Definition executor_failed (outcome : exec_outcome) : Prop :=
  match outcome with
  | Raises _ => True
  | Returns d => default false (success d) = false
  end.

(** The error text of a failed turn. *)
Definition error_text (outcome : exec_outcome) : string :=
  match outcome with
  | Raises str_e => str_e
  | Returns d => default "Unknown error occurred" (response d)
  end.

Definition apology_openings : list string :=
  [ "I encountered an issue. Please try again. Error: ";
    "I encountered an issue while processing your request. Please try again. Error: " ].

(** [text] is an apology that embeds [err]. *)
Definition is_apology (text err : string) : Prop :=
  ∃ opening, In opening apology_openings ∧ text = opening ++ err.

Definition requirements_of (o : ADKOrchestrator) (project_id : string)
  : option (gmap string RequirementRecord) :=
  requirements <$> projects (storage o) !! project_id.

(** [xs] is a window of at most [n] turns of [log], most recent first. *)
Definition recent_first_window (n : Z) (log xs : list Turn) : Prop :=
  (Z.of_nat (length xs) ≤ n)%Z ∧ xs `prefix_of` reverse log.

(** [n] appends of one user turn to a session. *)
Definition append_n (cfg : dict settings.value) (n : nat) (s : ADKSession)
  : ADKSession :=
  Nat.iter n (λ s', (Session.add_message cfg 0 "0a1b2c3d" s' "user" "hello" None).1) s.

(** The messages of the readiness gate for a project that is not ready
    and has at most two substantial records. *)
Definition not_ready_messages : list string :=
  [ "Please describe your project requirements first.";
    "Getting there! A bit more detail about design or functionality would help.";
    "Making progress! A few more details about your preferences would be great." ].

(** Every character of [s] is white space. *)
Fixpoint blank (s : string) : bool :=
  match s with
  | EmptyString => true
  | String c s' => PyStr.is_space c && blank s'
  end.

(** The number of turns of the project log that are tagged with
    [agent_name]. *)
Definition turns_of (agent_name : string) (project_data : Project) : nat :=
  length (List.filter (Orchestrator.agent_is agent_name) (messages project_data)).

(** The record of [agent_name] is there and substantial. *)
Definition has_contributed (agent_name : string) (project_data : Project) : bool :=
  match requirements project_data !! agent_name with
  | Some r => has_substance r
  | None => false
  end.

(** A colour of the technical specs: [#] and three or six hexadecimal
    digits. *)
Definition hex_colour (c : string) : Prop :=
  ∃ digits, c = String "#"%char digits ∧
            (PyStr.len digits = 3%nat ∨ PyStr.len digits = 6%nat) ∧
            Orchestrator.hex_run (PyStr.len digits) digits = true.

(** The log of the session of a project; a project without session has
    the empty log. *)
Definition session_log (st : LocalStorage) (project_id : string) : list Turn :=
  match sessions st !! project_id with
  | Some s => session_messages s
  | None => []
  end.

(** How often the state of [agent_name] was updated in a session. *)
Definition interactions (s : ADKSession) (agent_name : string) : nat :=
  match agent_states s !! agent_name with
  | Some state => interaction_count state
  | None => 0
  end.

(** What the loop of [_resolve_file_conflicts] maintains: the resolved
    list has no duplicates, and it holds the preferred path of a group
    exactly when the group is marked as used. *)
Definition resolved_ok (resolved : list string) (used : gset string) : Prop :=
  NoDup resolved ∧
  ∀ n g, In (n, g) Integration.conflict_groups →
         n ∈ used ↔ In (Integration.preferred_path g) resolved.

(** The reply as written contains a domain keyword of the agent (case
    ignored). *)
Definition contains_domain_keyword (agent_name response : string) : Prop :=
  ∃ kw, In kw (dict_get Orchestrator.technical_indicators agent_name []) ∧
        PyStr.contains kw (PyStr.lower response) = true.

End Spec.

(** Statements of the specification in the wording the code does not
    meet, each at one input. *)
Module Claim.

(** On executor failure the reply is an apology embedding the error and
    the requirement map of the project is left as it was. *)
Definition failed_turn_writes_nothing (now : time) (o : ADKOrchestrator)
    (project_id user_message : string) (outcome : exec_outcome) : Prop :=
  Spec.executor_failed outcome →
  ∃ o' r, Orchestrator.route_message now o project_id user_message outcome = (o', Ok r) ∧
          Spec.is_apology (route_message_text r) (Spec.error_text outcome) ∧
          Spec.requirements_of o' project_id = Spec.requirements_of o project_id.

(** Without an approval keyword and with topic keywords of two or more
    agents, routing moves to an agent other than the current one, the
    matching agent that comes first in the pipeline order. *)
Definition topic_switch_in_pipeline_order (current_agent user_message : string)
    (project_data : Project) : Prop :=
  ¬ Spec.has_approval_keyword user_message →
  (∃ a b, a ≠ b ∧ Spec.topic_match a user_message = true ∧
          Spec.topic_match b user_message = true) →
  ∃ next,
    Orchestrator._determine_next_agent settings.AGENT_CHAIN current_agent
      user_message project_data = Ok next ∧
    next ≠ current_agent ∧
    Spec.wins_in_order settings.AGENT_CHAIN user_message next.

(** [recentContext(n)] is a window of at most [n] turns, most recent
    first. *)
Definition recent_context_most_recent_first (s : ADKSession) (n : Z) : Prop :=
  Spec.recent_first_window n (session_messages s) (Session.get_recent_context s n).

(** On empty text or an agent outside the catalog, classification
    answers no-substance and routing stays with the current agent. *)
Definition degrades_conservatively (text agent_name : string)
    (project_data : Project) : Prop :=
  text = EmptyString ∨ ¬ In agent_name Spec.catalog →
  Orchestrator._has_substantial_content text agent_name = false ∧
  Orchestrator._determine_next_agent settings.AGENT_CHAIN agent_name text
    project_data = Ok agent_name.

(** For a technical agent, a reply that contains a domain keyword and
    whose trimmed length is below 40 has no substance, and the same reply
    padded past 40 characters, still containing the keyword, has
    substance. *)
Definition substance_monotone_in_length (agent_name before reply after : string)
  : Prop :=
  let padded := (before ++ reply ++ after)%string in
  In agent_name Spec.technical_agents →
  Spec.contains_domain_keyword agent_name reply →
  (Spec.trimmed_length reply < 40)%nat →
  Spec.contains_domain_keyword agent_name padded →
  (40 < Spec.trimmed_length padded)%nat →
  Orchestrator._has_substantial_content reply agent_name = false ∧
  Orchestrator._has_substantial_content padded agent_name = true.

End Claim.

(** ** Sample data *)

Module Sample.

Definition requirement (agent_name : string) (substance : bool) : RequirementRecord :=
  {| full_response := "The application keeps a list of tasks for every user.";
     user_message := "a task tracker";
     summary := "The application keeps a list of tasks for every user.";
     technical_specs := ∅;
     req_timestamp := 0;
     req_agent := agent_name;
     has_substance := substance |}.

Definition project (reqs : gmap string RequirementRecord) (active : string) : Project :=
  {| id := "p1"; name := "demo"; created_at := 0; updated_at := 0;
     status := "active"; requirements := reqs; messages := [];
     active_agent := Some active |}.

Definition orchestrator (p : Project) : ADKOrchestrator :=
  Orchestrator.init {| projects := {[ "p1" := p ]}; sessions := ∅ |}.

Definition fresh : Project := project ∅ "requirements_evolver".

(** Two substantial records: [requirements_evolver] and [ux_architect]. *)
Definition two_records : gmap string RequirementRecord :=
  <["ux_architect" := requirement "ux_architect" true]>
    (<["requirements_evolver" := requirement "requirements_evolver" true]> ∅).

Definition turn (text : string) : Turn :=
  {| role := "user"; message := text; agent := None; timestamp := 0;
     message_id := Some "0a1b2c3d" |}.

Definition session (log : list Turn) : ADKSession :=
  {| session_project_id := "p1"; session_messages := log;
     agent_states := ∅; last_activity := 0 |}.

Definition timeout : exec_outcome :=
  Returns {| success := Some false; response := Some "Error: timeout" |}.

End Sample.

(** * Properties *)

(** ** Strings, lists and dictionaries *)

Section PyFacts.

Lemma any_in_true keys s :
  PyStr.any_in keys s = true ↔ ∃ k, In k keys ∧ PyStr.contains k s = true.
Proof. unfold PyStr.any_in. apply existsb_exists. Qed.

Lemma any_in_false keys s :
  PyStr.any_in keys s = false ↔ ∀ k, In k keys → PyStr.contains k s = false.
Proof.
  unfold PyStr.any_in. rewrite <- not_true_iff_false, existsb_exists. split.
  - intros Hno k Hk. apply not_true_iff_false. intros Hc. apply Hno. eauto.
  - intros Hall (k & Hk & Hc). rewrite (Hall k Hk) in Hc. discriminate.
Qed.

Lemma mem_true x xs : PyStr.mem x xs = true ↔ In x xs.
Proof.
  unfold PyStr.mem. rewrite existsb_exists. split.
  - intros (y & Hy & Heq). apply String.eqb_eq in Heq. by subst.
  - intros Hx. exists x. split; [done | apply String.eqb_refl].
Qed.

Lemma mem_false x xs : PyStr.mem x xs = false ↔ ¬ In x xs.
Proof. rewrite <- not_true_iff_false, mem_true. done. Qed.

Lemma truthy_len s : (0 < PyStr.len s)%nat → PyStr.truthy s = true.
Proof. destruct s; simpl; [lia | done]. Qed.

Lemma strip_nonempty s :
  (0 < PyStr.len (PyStr.strip s))%nat → PyStr.truthy s = true.
Proof. destruct s; simpl; [lia | done]. Qed.

Lemma dict_lookup_mem {V} (d : dict V) k :
  PyStr.mem k (dict_keys d) = true → ∃ v, dict_lookup d k = Some v.
Proof.
  induction d as [| [k' v] d IH]; simpl; [done |].
  destruct (String.eqb k k'); simpl; eauto.
Qed.

Lemma dict_lookup_not_mem {V} (d : dict V) k :
  ¬ In k (dict_keys d) → dict_lookup d k = None.
Proof.
  induction d as [| [k' v] d IH]; simpl; [done |].
  intros Hno. destruct (String.eqb_spec k k') as [-> | _]; [tauto |].
  apply IH. tauto.
Qed.

Lemma list_index_mem x xs :
  PyStr.mem x xs = true →
  ∃ n, list_index x xs = Ok n ∧ (n < length xs)%nat ∧ xs !! n = Some x.
Proof.
  induction xs as [| y ys IH]; simpl; [done |].
  rewrite String.eqb_sym. destruct (String.eqb_spec y x) as [-> | _]; simpl.
  - intros _. exists 0%nat. repeat split; lia.
  - intros Hmem. destruct (IH Hmem) as (n & -> & Hlt & Hn).
    exists (S n). repeat split; [lia | done].
Qed.

Lemma list_item_lt {A} (xs : list A) i :
  (i < length xs)%nat → ∃ x, list_item xs i = Ok x ∧ xs !! i = Some x.
Proof.
  intros Hlt. unfold list_item.
  destruct (lookup_lt_is_Some_2 xs i Hlt) as [x ->]. eauto.
Qed.

Lemma startswith_lower p s :
  PyStr.startswith p s = true →
  PyStr.startswith (PyStr.lower p) (PyStr.lower s) = true.
Proof.
  revert s. induction p as [| a p IH]; intros [| b s]; simpl; try done.
  rewrite !andb_true_iff. intros [Hab Hps]. apply Ascii.eqb_eq in Hab as ->.
  by rewrite Ascii.eqb_refl, IH.
Qed.

(** Containment survives lower-casing both sides. *)
Lemma contains_lower k s :
  PyStr.contains k s = true →
  PyStr.contains (PyStr.lower k) (PyStr.lower s) = true.
Proof.
  induction s as [| c s IH]; simpl; rewrite !orb_true_iff.
  - intros [Hk | ?]; [| done]. left. by apply (startswith_lower k EmptyString).
  - intros [Hk | Hs]; [left | right; by apply IH].
    by apply (startswith_lower k (String c s)).
Qed.

Lemma startswith_cons a p b s :
  PyStr.startswith (String a p) (String b s)
  = Ascii.eqb a b && PyStr.startswith p s.
Proof. reflexivity. Qed.

Lemma startswith_rstrip kw s :
  Spec.ends_solid kw = true →
  PyStr.startswith kw s = true →
  PyStr.startswith kw (PyStr.rstrip s) = true.
Proof.
  revert s. induction kw as [| a kw IH]; intros s Hsolid; [done |].
  destruct s as [| b s]; [done |].
  rewrite startswith_cons, andb_true_iff. intros [Hab Hrest].
  apply Ascii.eqb_eq in Hab as <-. cbn [PyStr.rstrip].
  destruct kw as [| a' kw].
  - simpl in Hsolid. apply negb_true_iff in Hsolid. rewrite Hsolid.
    destruct (PyStr.rstrip s); simpl; by rewrite Ascii.eqb_refl.
  - specialize (IH s Hsolid Hrest).
    destruct (PyStr.rstrip s) as [| c r] eqn:Hr; [done |].
    by rewrite startswith_cons, Ascii.eqb_refl, IH.
Qed.

Lemma contains_nonempty kw s :
  PyStr.truthy kw = true → PyStr.contains kw s = true → PyStr.truthy s = true.
Proof. destruct kw, s; simpl; done. Qed.

Lemma contains_rstrip kw s :
  Spec.ends_solid kw = true →
  PyStr.contains kw s = true →
  PyStr.contains kw (PyStr.rstrip s) = true.
Proof.
  intros Hsolid. induction s as [| c s IH]; [done |].
  cbn [PyStr.contains]. rewrite orb_true_iff. intros [Hhere | Hlater].
  - apply (startswith_rstrip kw (String c s) Hsolid) in Hhere.
    destruct (PyStr.rstrip (String c s)); simpl; by rewrite Hhere.
  - specialize (IH Hlater). cbn [PyStr.rstrip].
    assert (Hkw : PyStr.truthy kw = true) by (by destruct kw).
    pose proof (contains_nonempty kw _ Hkw IH) as Hne.
    destruct (PyStr.rstrip s) as [| c' r]; [done |].
    cbn [PyStr.contains] in *. rewrite IH. apply orb_true_r.
Qed.

Lemma contains_lstrip kw s :
  Spec.starts_solid kw = true →
  PyStr.contains kw s = true →
  PyStr.contains kw (PyStr.lstrip s) = true.
Proof.
  intros Hsolid. induction s as [| c s IH]; [done |].
  cbn [PyStr.lstrip]. destruct (PyStr.is_space c) eqn:Hc; [| done].
  cbn [PyStr.contains]. rewrite orb_true_iff. intros [Hhere | Hlater]; [| by apply IH].
  destruct kw as [| a kw]; [done |]. simpl in Hhere, Hsolid.
  apply andb_true_iff in Hhere as [Hac _]. apply Ascii.eqb_eq in Hac as ->.
  by rewrite Hc in Hsolid.
Qed.

(** Trimming keeps every occurrence of a keyword without boundary blanks. *)
Lemma contains_strip kw s :
  Spec.starts_solid kw = true →
  Spec.ends_solid kw = true →
  PyStr.contains kw s = true →
  PyStr.contains kw (PyStr.strip s) = true.
Proof.
  intros Hstart Hend Hin. unfold PyStr.strip.
  by apply contains_rstrip, contains_lstrip.
Qed.

End PyFacts.

(** ** Substance classifier *)

Section Classifier.

Import Orchestrator.

Lemma technical_not_early agent_name :
  In agent_name Spec.technical_agents → PyStr.mem agent_name early_agents = false.
Proof.
  unfold Spec.technical_agents. simpl.
  intros [<- | [<- | [<- | [<- | [<- | []]]]]]; reflexivity.
Qed.

Lemma short_reply_rejected response agent_name :
  (Spec.trimmed_length response < 25)%nat →
  _has_substantial_content response agent_name = false.
Proof.
  unfold Spec.trimmed_length, _has_substantial_content. intros Hlen.
  apply Nat.ltb_lt in Hlen. rewrite Hlen, orb_true_r. done.
Qed.

Lemma technical_below_40 response agent_name :
  PyStr.mem agent_name early_agents = false →
  (Spec.trimmed_length response < 40)%nat →
  _has_substantial_content response agent_name = false.
Proof.
  unfold Spec.trimmed_length, _has_substantial_content. intros -> Hlen.
  destruct (negb _ || _); [done |].
  apply Nat.leb_gt in Hlen. rewrite Hlen. done.
Qed.

Lemma technical_from_40 response agent_name :
  PyStr.mem agent_name early_agents = false →
  (40 ≤ Spec.trimmed_length response)%nat →
  Spec.has_domain_keyword agent_name response →
  _has_substantial_content response agent_name = true.
Proof.
  unfold Spec.trimmed_length, Spec.has_domain_keyword, _has_substantial_content.
  intros -> Hlen Hkw.
  rewrite strip_nonempty by lia.
  replace (PyStr.len (PyStr.strip response) <? 25)%nat with false
    by (symmetry; apply Nat.ltb_ge; lia).
  cbn [negb orb]. apply andb_true_iff. split; [by apply Nat.leb_le |].
  by apply any_in_true.
Qed.

Lemma unknown_agent_no_indicators agent_name :
  ¬ In agent_name Spec.catalog →
  PyStr.mem agent_name early_agents = false ∧
  dict_get technical_indicators agent_name [] = [].
Proof.
  intros Hno. split.
  - apply mem_false. intros Hin. apply Hno.
    unfold Spec.catalog, settings.AGENT_CHAIN, early_agents in *. simpl in *. tauto.
  - unfold dict_get. rewrite dict_lookup_not_mem; [done |].
    intros Hin. apply Hno.
    unfold Spec.catalog, settings.AGENT_CHAIN. simpl in *. tauto.
Qed.

Lemma unknown_agent_rejected response agent_name :
  ¬ In agent_name Spec.catalog →
  _has_substantial_content response agent_name = false.
Proof.
  intros Hno. destruct (unknown_agent_no_indicators _ Hno) as [Hearly Hind].
  unfold _has_substantial_content. rewrite Hearly, Hind.
  destruct (negb _ || _); [done |]. cbn [PyStr.any_in existsb]. apply andb_false_r.
Qed.

Lemma empty_reply_rejected agent_name :
  _has_substantial_content EmptyString agent_name = false.
Proof. reflexivity. Qed.

Lemma technical_indicators_lower agent_name kw :
  In kw (dict_get technical_indicators agent_name []) → PyStr.lower kw = kw.
Proof.
  unfold dict_get, technical_indicators. simpl.
  repeat (destruct (String.eqb agent_name _);
          [simpl; intros Hin;
           repeat (destruct Hin as [<- | Hin]; [reflexivity |]); destruct Hin |]).
  intros [].
Qed.

(** A reply that contains, as written, a domain keyword without boundary
    blanks carries it for the classifier too. *)
Lemma raw_domain_keyword agent_name response kw :
  In kw (dict_get technical_indicators agent_name []) →
  Spec.starts_solid kw = true →
  Spec.ends_solid kw = true →
  PyStr.contains kw response = true →
  Spec.has_domain_keyword agent_name response.
Proof.
  intros Hin Hstart Hend Hraw. exists kw. split; [done |].
  rewrite <- (technical_indicators_lower agent_name kw Hin).
  by apply contains_lower, contains_strip.
Qed.

End Classifier.

(** ** Routing policy *)

Section Routing.

Import Orchestrator.

Lemma progress_switch_total chain current_agent project_data :
  ∃ a, progress_switch chain current_agent project_data = Ok a.
Proof.
  unfold progress_switch.
  destruct (PyStr.mem current_agent chain) eqn:Hmem; [| eauto].
  destruct (list_index_mem _ _ Hmem) as (n & -> & Hlt & _). simpl.
  destruct (_ && _) eqn:Hcond; [| eauto].
  apply andb_true_iff in Hcond as [_ Hlast]. apply Z.ltb_lt in Hlast.
  destruct (list_item_lt chain (n + 1)) as (x & -> & _); [lia | eauto].
Qed.

Lemma progress_switch_outside chain current_agent project_data :
  ¬ In current_agent chain →
  progress_switch chain current_agent project_data = Ok current_agent.
Proof.
  intros Hno. unfold progress_switch.
  by rewrite (proj2 (mem_false _ _) Hno).
Qed.

Lemma topic_switch_total chain current_agent message_lower project_data :
  ∃ a, topic_switch chain current_agent message_lower project_data = Ok a.
Proof.
  unfold topic_switch. destruct (first_keyword_match _ _); [eauto |].
  apply progress_switch_total.
Qed.

Lemma determine_next_agent_total chain current_agent user_message project_data :
  ∃ a, _determine_next_agent chain current_agent user_message project_data = Ok a.
Proof.
  unfold _determine_next_agent.
  destruct (PyStr.any_in approval_keywords _); [| apply topic_switch_total].
  destruct (PyStr.mem _ (dict_keys _)) eqn:Hmem; [| apply topic_switch_total].
  destruct (dict_lookup_mem _ _ Hmem) as [v Hv].
  unfold dict_item. rewrite Hv. eauto.
Qed.

Lemma outside_chain_no_progression agent_name :
  ¬ In agent_name settings.AGENT_CHAIN →
  PyStr.mem agent_name (dict_keys approval_progression) = false.
Proof.
  intros Hno. apply mem_false. intros Hin. apply Hno.
  unfold settings.AGENT_CHAIN. simpl in *. tauto.
Qed.

Lemma determine_next_agent_outside agent_name user_message project_data :
  ¬ In agent_name settings.AGENT_CHAIN →
  first_keyword_match agent_keywords (PyStr.lower user_message) = None →
  _determine_next_agent settings.AGENT_CHAIN agent_name user_message project_data
  = Ok agent_name.
Proof.
  intros Hno Hnone. unfold _determine_next_agent, topic_switch.
  rewrite outside_chain_no_progression, Hnone, progress_switch_outside by done.
  by destruct (PyStr.any_in _ _).
Qed.

Lemma dict_lookup_Some_mem {V} (d : dict V) k v :
  dict_lookup d k = Some v → PyStr.mem k (dict_keys d) = true.
Proof.
  induction d as [| [k' v'] d IH]; simpl; [done |].
  destruct (String.eqb k k'); simpl; eauto.
Qed.

Lemma dict_get_cons {V} k v (d : dict V) a default :
  dict_get ((k, v) :: d) a default
  = if String.eqb a k then v else dict_get d a default.
Proof. unfold dict_get. simpl. by destruct (String.eqb a k). Qed.

Lemma approval_iff user_message :
  Spec.has_approval_keyword user_message ↔
  PyStr.any_in approval_keywords (PyStr.lower user_message) = true.
Proof. unfold Spec.has_approval_keyword. by rewrite any_in_true. Qed.

Lemma approval_progression_successor i current_agent :
  settings.AGENT_CHAIN !! i = Some current_agent →
  (S i < length settings.AGENT_CHAIN)%nat →
  ∃ next, dict_lookup approval_progression current_agent = Some next ∧
          settings.AGENT_CHAIN !! S i = Some next.
Proof.
  intros Hi Hlt. unfold settings.AGENT_CHAIN in *. simpl in Hlt.
  do 6 (destruct i as [| i];
        [injection Hi as <-; eexists; split; reflexivity |]).
  lia.
Qed.

Lemma approved_step chain current_agent user_message project_data next :
  Spec.has_approval_keyword user_message →
  dict_lookup approval_progression current_agent = Some next →
  _determine_next_agent chain current_agent user_message project_data = Ok next.
Proof.
  intros Happ Hnext. unfold _determine_next_agent.
  rewrite (proj1 (approval_iff _) Happ), (dict_lookup_Some_mem _ _ _ Hnext).
  unfold dict_item. by rewrite Hnext.
Qed.

(** The first entry of a table that matches is the one [first_keyword_match]
    returns, whatever the other entries are. *)
Lemma first_keyword_match_first (table : dict (list string)) m :
  NoDup (dict_keys table) →
  (∃ a, PyStr.any_in (dict_get table a []) m = true) →
  ∃ next (i : nat),
    first_keyword_match table m = Some next ∧
    dict_keys table !! i = Some next ∧
    PyStr.any_in (dict_get table next []) m = true ∧
    ∀ (j : nat) c, dict_keys table !! j = Some c →
           PyStr.any_in (dict_get table c []) m = true → (i ≤ j)%nat.
Proof.
  induction table as [| [k kws] rest IH]; intros Hnd [a Ha].
  { discriminate Ha. }
  change (dict_keys ((k, kws) :: rest)) with (k :: dict_keys rest) in *.
  apply NoDup_cons in Hnd as [Hk Hnd]. simpl.
  destruct (PyStr.any_in kws m) eqn:Hkws.
  - exists k, 0%nat. rewrite dict_get_cons, String.eqb_refl.
    repeat split; [done | intros; lia].
  - rewrite dict_get_cons in Ha.
    destruct (String.eqb a k); [congruence |].
    destruct (IH Hnd (ex_intro _ a Ha)) as (next & i & Hfirst & Hi & Hnext & Hmin).
    assert (Hother : ∀ c, c ∈ dict_keys rest →
              dict_get ((k, kws) :: rest) c [] = dict_get rest c []).
    { intros c Hc. rewrite dict_get_cons.
      destruct (String.eqb_spec c k) as [-> | _]; [by destruct Hk | done]. }
    exists next, (S i). rewrite Hother by (by eapply list_elem_of_lookup_2).
    repeat split; [done .. |].
    intros [| j] c Hj Hc; simpl in Hj.
    + injection Hj as <-. rewrite dict_get_cons, String.eqb_refl in Hc. congruence.
    + rewrite Hother in Hc by (by eapply list_elem_of_lookup_2).
      specialize (Hmin j c Hj Hc). lia.
Qed.

Lemma agent_keywords_NoDup : NoDup (dict_keys agent_keywords).
Proof. by apply (bool_decide_unpack _). Qed.

Lemma keyword_order_is_table_order : Spec.keyword_order = dict_keys agent_keywords.
Proof. reflexivity. Qed.

Lemma first_topic_match user_message a :
  Spec.topic_match a user_message = true →
  ∃ next, first_keyword_match agent_keywords (PyStr.lower user_message) = Some next ∧
          Spec.wins_in_order Spec.keyword_order user_message next.
Proof.
  intros Ha.
  destruct (first_keyword_match_first agent_keywords (PyStr.lower user_message)
              agent_keywords_NoDup (ex_intro _ a Ha))
    as (next & i & Hfirst & Hi & Hnext & Hmin).
  exists next. split; [done |]. exists i. rewrite keyword_order_is_table_order.
  repeat split; [done .. |]. intros j c. apply Hmin.
Qed.

Lemma no_keyword_no_match (table : dict (list string)) m :
  PyStr.any_in (concat (map snd table)) m = false →
  first_keyword_match table m = None.
Proof.
  induction table as [| [k kws] rest IH]; simpl; [done |].
  unfold PyStr.any_in in *. rewrite existsb_app, orb_false_iff.
  intros [-> Hrest]. by apply IH.
Qed.

Lemma no_topic_no_switch user_message :
  Spec.mentions_topic user_message = false →
  first_keyword_match agent_keywords (PyStr.lower user_message) = None.
Proof. apply no_keyword_no_match. Qed.

Lemma approval_keywords_lower kw :
  In kw approval_keywords → PyStr.lower kw = kw.
Proof.
  unfold approval_keywords. simpl. intros Hin.
  repeat (destruct Hin as [<- | Hin]; [reflexivity |]). destruct Hin.
Qed.

(** A message that contains an approval keyword as written carries it for
    the router too. *)
Lemma raw_approval_keyword user_message kw :
  In kw approval_keywords →
  PyStr.contains kw user_message = true →
  Spec.has_approval_keyword user_message.
Proof.
  intros Hin Hraw. exists kw. split; [done |].
  rewrite <- (approval_keywords_lower kw Hin). by apply contains_lower.
Qed.

End Routing.

(** ** Readiness gate *)

Section Gate.

Import Orchestrator.

Implicit Types reqs : gmap string RequirementRecord.

Lemma sum_ones {A} (l : list A) : sum_list (map (fun _ => 1%nat) l) = length l.
Proof. induction l; simpl; congruence. Qed.

(** The generator expression of [_has_minimal_requirements] counts the
    substantial records. *)
Lemma counted_substantial reqs :
  sum_list (map (fun _ => 1%nat)
              (List.filter has_substance (map snd (map_to_list reqs))))
  = Spec.substantial_count reqs.
Proof.
  rewrite sum_ones. unfold Spec.substantial_count.
  induction reqs as [| i x m Hi Hfirst IH] using map_first_key_ind.
  { by rewrite map_to_list_empty, map_filter_empty, map_size_empty. }
  rewrite map_to_list_insert_first_key by done. simpl.
  destruct (has_substance x) eqn:Hx; simpl.
  - rewrite map_filter_insert_True by done.
    rewrite map_size_insert_None by (by apply map_lookup_filter_None_2; left).
    by rewrite IH.
  - rewrite map_filter_insert_not' by (simpl; congruence).
    by rewrite IH.
Qed.

(** So does the loop of [can_generate_code]. *)
Lemma count_step_counts items n names :
  (foldl count_step (n, names) items).1
  = (n + length (List.filter has_substance (map snd items)))%nat.
Proof.
  revert n names. induction items as [| [k r] items IH]; intros n names; simpl.
  { lia. }
  unfold count_step at 2. simpl. destruct (has_substance r); simpl.
  - rewrite IH. lia.
  - apply IH.
Qed.

Lemma has_minimal_requirements_eligible project_data :
  _has_minimal_requirements project_data = true ↔
  Spec.eligible (requirements project_data).
Proof.
  unfold _has_minimal_requirements, Spec.eligible, Spec.evolver_has_substance.
  rewrite counted_substantial.
  rewrite !orb_true_iff, andb_true_iff, !Nat.leb_le.
  destruct (requirements project_data !! "requirements_evolver") as [r |].
  - split.
    + intros [[? | [? ?]] | ?]; eauto 6.
    + intros [? | [[(r' & [= <-] & ?) ?] | ?]]; auto.
  - split.
    + intros [[? | [? ?]] | ?]; auto. discriminate.
    + intros [? | [[(r' & ? & ?) ?] | ?]]; auto. discriminate.
Qed.

Lemma can_generate_code_status o project_id project_data :
  Storage.get_project (storage o) project_id = Ok project_data →
  ∃ s, can_generate_code o project_id = Ok s ∧
       can_generate s = _has_minimal_requirements project_data ∧
       substantial_agents s = Spec.substantial_count (requirements project_data).
Proof.
  intros Hget. unfold can_generate_code. rewrite Hget. simpl.
  pose proof (count_step_counts (map_to_list (requirements project_data)) 0 []) as Hn.
  destruct (foldl _ _ _) as [n names]. simpl in Hn.
  eexists. split; [reflexivity |]. simpl. split; [done |].
  by rewrite Hn, <- counted_substantial, sum_ones.
Qed.

(** Two substantial records, one of them of [requirements_evolver]. *)
Lemma evolver_and_one_more project_data r1 r2 :
  requirements project_data
  = <["ux_architect" := r2]> (<["requirements_evolver" := r1]> ∅) →
  has_substance r1 = true →
  has_substance r2 = true →
  Spec.substantial_count (requirements project_data) = 2%nat ∧
  _has_minimal_requirements project_data = true.
Proof.
  intros Hreqs H1 H2.
  assert (Hcount : Spec.substantial_count (requirements project_data) = 2%nat).
  { unfold Spec.substantial_count. rewrite Hreqs.
    rewrite !map_filter_insert_True, map_filter_empty by done.
    rewrite !map_size_insert_None, map_size_empty; done. }
  split; [done |]. apply has_minimal_requirements_eligible.
  right; left. split; [| lia].
  exists r1. split; [| done]. rewrite Hreqs.
  by rewrite lookup_insert_ne, lookup_insert_eq.
Qed.

End Gate.

(** ** Session memory *)

Section SessionMemory.

Lemma slice_from_neg {A} (xs : list A) (k : Z) :
  (0 < k)%Z → slice_from (- k) xs = drop (length xs - Z.to_nat k) xs.
Proof.
  intros Hk. unfold slice_from.
  replace (- k <? 0)%Z with true by (symmetry; apply Z.ltb_lt; lia).
  f_equal. lia.
Qed.

Lemma slice_from_zero {A} (xs : list A) : slice_from (- 0) xs = xs.
Proof. reflexivity. Qed.

Lemma recent_context_positive s n :
  (0 < n)%Z →
  Session.get_recent_context s n
  = drop (length (session_messages s) - Z.to_nat n) (session_messages s).
Proof. apply slice_from_neg. Qed.

(** The configuration of [settings.py] has no [compaction_strategy]. *)
Lemma no_compaction_strategy :
  dict_lookup settings.SESSION_CONFIG "compaction_strategy" = None ∧
  dict_lookup settings.SESSION_CONFIG "max_messages" = Some (settings.VInt 50).
Proof. split; reflexivity. Qed.

Lemma compact_context_below s :
  (length (session_messages s) ≤ 50)%nat →
  Session._compact_context settings.SESSION_CONFIG s = Ok s.
Proof.
  intros Hlen. unfold Session._compact_context. simpl.
  replace (50 <? Z.of_nat (length (session_messages s)))%Z with false
    by (symmetry; apply Z.ltb_ge; lia).
  done.
Qed.

Lemma compact_context_above s :
  (50 < length (session_messages s))%nat →
  Session._compact_context settings.SESSION_CONFIG s
  = Raise (KeyError "compaction_strategy").
Proof.
  intros Hlen. unfold Session._compact_context. simpl.
  replace (50 <? Z.of_nat (length (session_messages s)))%Z with true
    by (symmetry; apply Z.ltb_lt; lia).
  done.
Qed.

(** Once the log holds [max_messages] turns, every append raises and
    leaves the log one turn longer. *)
Lemma add_message_at_cap now mid s role message agent :
  (50 ≤ length (session_messages s))%nat →
  ∃ s', Session.add_message settings.SESSION_CONFIG now mid s role message agent
        = (s', Raise (KeyError "compaction_strategy")) ∧
        length (session_messages s') = S (length (session_messages s)).
Proof.
  intros Hlen. unfold Session.add_message.
  rewrite compact_context_above by (simpl; rewrite length_app; simpl; lia).
  eexists. split; [reflexivity |]. simpl. rewrite length_app. simpl. lia.
Qed.

(** With a configuration that names the strategy, compaction keeps the
    log within [max_messages]. *)
Lemma add_message_compacts (cfg : dict settings.value) (cap : Z)
    now mid s role message agent :
  dict_lookup cfg "max_messages" = Some (settings.VInt cap) →
  dict_lookup cfg "compaction_strategy" = Some (settings.VStr "recent") →
  (2 ≤ cap)%Z →
  (Z.of_nat (length (session_messages s)) ≤ cap)%Z →
  ∃ s', Session.add_message cfg now mid s role message agent = (s', Ok ()) ∧
        (Z.of_nat (length (session_messages s')) ≤ cap)%Z ∧
        session_messages s' `suffix_of`
          (session_messages s ++ [mkTurn role message agent now (Some mid)])%list.
Proof.
  intros Hmax Hstrategy Hcap Hlen.
  unfold Session.add_message, Session._compact_context, dict_item.
  rewrite Hmax, Hstrategy. simpl.
  destruct (cap <? _)%Z eqn:Hover.
  - eexists. split; [reflexivity |]. simpl.
    assert (0 < cap `div` 2)%Z by (apply Z.div_str_pos; lia).
    assert (cap `div` 2 ≤ cap)%Z by (apply Z.div_le_upper_bound; lia).
    rewrite slice_from_neg by done.
    split; [| apply suffix_drop].
    rewrite length_drop, length_app. simpl. lia.
  - eexists. split; [reflexivity |]. simpl.
    apply Z.ltb_ge in Hover. rewrite length_app in Hover. simpl in Hover.
    split; [rewrite length_app; simpl; lia | done].
Qed.

End SessionMemory.

(** ** Storage and the facade *)

Section Facade.

Import Orchestrator.

Lemma get_project_set_project st pid p :
  Storage.get_project (Storage.set_project st pid p) pid = Ok p.
Proof.
  unfold Storage.get_project, Storage.set_project. simpl.
  by rewrite lookup_insert_eq.
Qed.

Lemma get_project_set_session st pid pid' s :
  Storage.get_project (Storage.set_session st pid' s) pid = Storage.get_project st pid.
Proof. reflexivity. Qed.

Lemma get_project_get_session now st pid pid' :
  Storage.get_project (Storage._get_session now st pid').1 pid
  = Storage.get_project st pid.
Proof. unfold Storage._get_session. by destruct (sessions st !! pid'). Qed.

Lemma set_active_agent_ok now st pid agent_name p :
  Storage.get_project st pid = Ok p →
  ∃ st', Storage.set_active_agent now st pid agent_name = (st', Ok ()) ∧
         Storage.get_project st' pid
         = Ok (Storage.touch now (Storage.with_active_agent agent_name p)).
Proof.
  intros Hget. unfold Storage.set_active_agent, Storage.update_project.
  rewrite Hget.
  pose proof (get_project_get_session now
                (Storage.set_project st pid
                   (Storage.touch now (Storage.with_active_agent agent_name p)))
                pid pid) as Hsame.
  destruct (Storage._get_session _ _ _) as [st2 session]. simpl in Hsame.
  eexists. split; [reflexivity |].
  by rewrite get_project_set_session, Hsame, get_project_set_project.
Qed.

Lemma update_requirements_ok now st pid agent_name req p :
  Storage.get_project st pid = Ok p →
  ∃ st', Storage.update_requirements now st pid agent_name req = (st', Ok ()) ∧
         Storage.get_project st' pid
         = Ok (Storage.touch now (Storage.with_requirement agent_name req p)).
Proof.
  intros Hget. unfold Storage.update_requirements. rewrite Hget.
  destruct (Storage._get_session _ _ _) as [st1 session].
  eexists. split; [reflexivity |]. apply get_project_set_project.
Qed.

(** A turn on an existing project returns; the record of the reply is
    written for the agent that answered, whatever the executor did. *)
Lemma route_message_returns now o project_id user_message outcome project_data :
  Storage.get_project (storage o) project_id = Ok project_data →
  ∃ o' next project_data' record,
    route_message now o project_id user_message outcome
    = (o', Ok {| route_message_text := _run_single_agent outcome;
                 route_agent := next;
                 should_generate := false |}) ∧
    _determine_next_agent (agent_chain o)
      (default "requirements_evolver" (active_agent project_data))
      user_message project_data = Ok next ∧
    Storage.get_project (storage o') project_id = Ok project_data' ∧
    requirements project_data'
    = <[next := record]> (requirements project_data) ∧
    full_response record = _run_single_agent outcome ∧
    req_agent record = next ∧
    has_substance record = _has_substantial_content (_run_single_agent outcome) next.
Proof.
  intros Hget. unfold route_message. rewrite Hget.
  destruct (determine_next_agent_total (agent_chain o)
              (default "requirements_evolver" (active_agent project_data))
              user_message project_data) as [next Hnext].
  rewrite Hnext.
  assert (Hactive : ∃ st1 p1,
    (if negb (String.eqb next (default "requirements_evolver" (active_agent project_data)))
     then Storage.set_active_agent now (storage o) project_id next
     else (storage o, Ok ())) = (st1, Ok ()) ∧
    Storage.get_project st1 project_id = Ok p1 ∧
    requirements p1 = requirements project_data).
  { destruct (negb _).
    - destruct (set_active_agent_ok now _ _ next _ Hget) as (st1 & -> & Hp1).
      by eexists _, _.
    - by eexists _, _. }
  destruct Hactive as (st1 & p1 & -> & Hp1 & Hreqs).
  unfold _extract_requirements_enhanced.
  match goal with
  | |- context [Storage.update_requirements now st1 project_id next ?r] =>
      destruct (update_requirements_ok now st1 project_id next r p1 Hp1)
        as (st2 & -> & Hp2)
  end.
  eexists _, next, _, _. split; [reflexivity |]. split; [done |].
  split; [exact Hp2 |]. simpl. rewrite Hreqs. done.
Qed.

Lemma failed_reply_is_apology outcome :
  Spec.executor_failed outcome →
  Spec.is_apology (_run_single_agent outcome) (Spec.error_text outcome).
Proof.
  unfold Spec.is_apology, Spec.apology_openings.
  destruct outcome as [d | str_e]; simpl.
  - intros ->. eexists. split; [right; left; reflexivity | reflexivity].
  - intros _. eexists. split; [left; reflexivity | reflexivity].
Qed.

End Facade.

(** ** The statements of the specification *)

Import Orchestrator.

(** C1. A project whose requirement map holds exactly two substantial
    records, of [requirements_evolver] and of [ux_architect], is reported
    ready by [can_generate_code]: [can_generate] is [true] with two
    substantial agents, where the claim expects [false]. *)
Theorem evolver_and_ux_reported_ready :
  ∃ s, can_generate_code
         (Sample.orchestrator (Sample.project Sample.two_records "ux_architect")) "p1"
       = Ok s ∧
       can_generate s = true ∧
       substantial_agents s = 2%nat ∧
       status_message s
       = "Ready to generate! Collected substantial requirements from 2 agents.".
Proof. eexists. split; [vm_compute; reflexivity |]. repeat split. Qed.

(** C2, as worded: at a turn whose executor call reports a timeout the
    requirement map does not stay as it was. *)
Lemma failed_turn_writes_record :
  ¬ Claim.failed_turn_writes_nothing 7 (Sample.orchestrator Sample.fresh)
      "p1" "hello" Sample.timeout.
Proof.
  intros Hclaim.
  destruct Hclaim as (o' & r & Hroute & _ & Hsame); [reflexivity |].
  destruct (route_message_returns 7 (Sample.orchestrator Sample.fresh) "p1" "hello"
              Sample.timeout Sample.fresh eq_refl)
    as (o2 & next & p' & record & Hroute2 & _ & Hget & Hreqs & _).
  rewrite Hroute in Hroute2. injection Hroute2 as -> _.
  unfold Spec.requirements_of in Hsame. unfold Storage.get_project in Hget.
  destruct (projects (storage o2) !! "p1") as [p2 |]; [| discriminate].
  injection Hget as ->.
  change (Some (requirements p') = Some (∅ : gmap string RequirementRecord)) in Hsame.
  injection Hsame as Hempty. rewrite Hreqs in Hempty.
  by apply insert_non_empty in Hempty.
Qed.

(** C2, amended. When the executor fails (its result does not report
    success, or the call raises), [route_message] on an existing project
    returns a reply that is an apology embedding the error text, and the
    requirement map of the project gets a record for the answering agent
    whose full response is that apology. *)
Theorem failed_turn_apology_and_record
    now o project_id user_message outcome project_data :
  Storage.get_project (storage o) project_id = Ok project_data →
  Spec.executor_failed outcome →
  ∃ o' r project_data' record,
    route_message now o project_id user_message outcome = (o', Ok r) ∧
    Spec.is_apology (route_message_text r) (Spec.error_text outcome) ∧
    Storage.get_project (storage o') project_id = Ok project_data' ∧
    requirements project_data'
    = <[route_agent r := record]> (requirements project_data) ∧
    full_response record = route_message_text r.
Proof.
  intros Hget Hfailed.
  destruct (route_message_returns now o project_id user_message outcome _ Hget)
    as (o' & next & p' & record & Hroute & _ & Hget' & Hreqs & Hfull & _).
  eexists o', _, p', record. split; [exact Hroute |]. simpl.
  repeat split; [by apply failed_reply_is_apology | done ..].
Qed.

Lemma failed_turn_apology_and_record_witness :
  Storage.get_project (storage (Sample.orchestrator Sample.fresh)) "p1" = Ok Sample.fresh ∧
  Spec.executor_failed Sample.timeout ∧
  ∃ o' r project_data' record,
    route_message 7 (Sample.orchestrator Sample.fresh) "p1" "hello" Sample.timeout
    = (o', Ok r) ∧
    Spec.is_apology (route_message_text r) (Spec.error_text Sample.timeout) ∧
    Storage.get_project (storage o') "p1" = Ok project_data' ∧
    requirements project_data'
    = <[route_agent r := record]> (requirements Sample.fresh) ∧
    full_response record = route_message_text r.
Proof.
  split; [reflexivity |]. split; [reflexivity |].
  apply (failed_turn_apology_and_record 7 (Sample.orchestrator Sample.fresh)
           "p1" "hello" Sample.timeout Sample.fresh); reflexivity.
Defined.

(** C3. Under [SESSION_CONFIG] of [settings.py], where [max_messages] is
    50, the 51st append to a fresh session raises [KeyError] for the
    missing key [compaction_strategy] and leaves 51 turns in the log. *)
Theorem append_past_cap_raises :
  dict_lookup settings.SESSION_CONFIG "max_messages" = Some (settings.VInt 50) ∧
  length (session_messages
            (Spec.append_n settings.SESSION_CONFIG 50 (Session.init "p1" 0))) = 50%nat ∧
  ∃ s51,
    Session.add_message settings.SESSION_CONFIG 0 "0a1b2c3d"
      (Spec.append_n settings.SESSION_CONFIG 50 (Session.init "p1" 0))
      "user" "hello" None
    = (s51, Raise (KeyError "compaction_strategy")) ∧
    length (session_messages s51) = 51%nat.
Proof.
  split; [reflexivity |]. split; [vm_compute; reflexivity |].
  eexists. split; [vm_compute; reflexivity |]. vm_compute. reflexivity.
Qed.

(** C4. For every project, [can_generate_code] returns [can_generate = true]
    exactly when the number of substantial records is at least 3, or the
    record of [requirements_evolver] is substantial and that number is at
    least 2, or that number is at least 4. *)
Theorem readiness_gate_rule o project_id project_data :
  Storage.get_project (storage o) project_id = Ok project_data →
  ∃ s, can_generate_code o project_id = Ok s ∧
       (can_generate s = true ↔ Spec.eligible (requirements project_data)) ∧
       substantial_agents s = Spec.substantial_count (requirements project_data).
Proof.
  intros Hget.
  destruct (can_generate_code_status o project_id project_data Hget)
    as (s & Hs & Hcan & Hcount).
  exists s. split; [done |]. split; [| done].
  rewrite Hcan. apply has_minimal_requirements_eligible.
Qed.

Lemma readiness_gate_rule_witness :
  Storage.get_project
    (storage (Sample.orchestrator (Sample.project Sample.two_records "ux_architect")))
    "p1"
  = Ok (Sample.project Sample.two_records "ux_architect") ∧
  ∃ s, can_generate_code
         (Sample.orchestrator (Sample.project Sample.two_records "ux_architect")) "p1"
       = Ok s ∧
       (can_generate s = true ↔ Spec.eligible Sample.two_records) ∧
       substantial_agents s = Spec.substantial_count Sample.two_records.
Proof.
  split; [reflexivity |].
  apply (readiness_gate_rule
           (Sample.orchestrator (Sample.project Sample.two_records "ux_architect"))
           "p1" (Sample.project Sample.two_records "ux_architect")).
  reflexivity.
Defined.

(** C5, as worded: with "save the code" the router answers
    [data_architect] although [frontend_engineer], which also matches,
    comes earlier in the pipeline; and with "the ux and the design" at
    [ux_architect] it answers [ux_architect], the current agent. *)
Lemma topic_switch_not_pipeline_order :
  ¬ Claim.topic_switch_in_pipeline_order "requirements_evolver" "save the code"
      Sample.fresh ∧
  ¬ Claim.topic_switch_in_pipeline_order "ux_architect" "the ux and the design"
      Sample.fresh.
Proof.
  split; intros Hclaim.
  - destruct Hclaim as (next & Hnext & _ & i & Hi & _ & Hmin).
    + rewrite approval_iff. by vm_compute.
    + exists "data_architect", "frontend_engineer". by vm_compute.
    + vm_compute in Hnext. injection Hnext as <-.
      specialize (Hmin 3%nat "frontend_engineer" eq_refl eq_refl).
      do 4 (destruct i as [| i]; [discriminate Hi |]). lia.
  - destruct Hclaim as (next & Hnext & Hother & _).
    + rewrite approval_iff. by vm_compute.
    + exists "ux_architect", "ui_designer". by vm_compute.
    + vm_compute in Hnext. injection Hnext as <-. by apply Hother.
Qed.

(** C5, amended. When a message carries no approval keyword and carries
    topic keywords of two or more agents, routing answers the matching
    agent that comes first in the order of the router's keyword table
    (requirements_evolver, ux_architect, ui_designer, data_architect,
    api_designer, frontend_engineer, devops); that agent may be the
    current one. *)
Theorem topic_switch_in_table_order
    chain current_agent user_message project_data a b :
  ¬ Spec.has_approval_keyword user_message →
  a ≠ b →
  Spec.topic_match a user_message = true →
  Spec.topic_match b user_message = true →
  ∃ next,
    _determine_next_agent chain current_agent user_message project_data = Ok next ∧
    Spec.wins_in_order Spec.keyword_order user_message next.
Proof.
  intros Hno _ Ha _.
  destruct (first_topic_match user_message a Ha) as (next & Hfirst & Hwins).
  exists next. split; [| done].
  unfold _determine_next_agent, topic_switch.
  rewrite approval_iff in Hno. apply not_true_is_false in Hno.
  by rewrite Hno, Hfirst.
Qed.

Lemma topic_switch_in_table_order_witness :
  ¬ Spec.has_approval_keyword "save the code" ∧
  "data_architect" ≠ "frontend_engineer" ∧
  Spec.topic_match "data_architect" "save the code" = true ∧
  Spec.topic_match "frontend_engineer" "save the code" = true ∧
  ∃ next,
    _determine_next_agent settings.AGENT_CHAIN "requirements_evolver"
      "save the code" Sample.fresh = Ok next ∧
    Spec.wins_in_order Spec.keyword_order "save the code" next.
Proof.
  assert (Hno : ¬ Spec.has_approval_keyword "save the code").
  { rewrite approval_iff. vm_compute. discriminate. }
  split; [exact Hno |]. split; [discriminate |].
  split; [reflexivity |]. split; [reflexivity |].
  apply (topic_switch_in_table_order settings.AGENT_CHAIN "requirements_evolver"
           "save the code" Sample.fresh "data_architect" "frontend_engineer");
    [exact Hno | discriminate | reflexivity | reflexivity].
Defined.

(** C6. At every position of the agent chain but the last, a message that
    carries an approval keyword moves routing to the successor that the
    approval-progression table gives, which is the next agent of the chain,
    whatever the project holds and whatever else the message says; at
    [ui_designer], "looks good, proceed" gives [frontend_engineer]. *)
Theorem approval_advances_to_successor
    chain i current_agent user_message project_data :
  settings.AGENT_CHAIN !! i = Some current_agent →
  (S i < length settings.AGENT_CHAIN)%nat →
  Spec.has_approval_keyword user_message →
  (∃ next,
     _determine_next_agent chain current_agent user_message project_data = Ok next ∧
     dict_lookup approval_progression current_agent = Some next ∧
     settings.AGENT_CHAIN !! S i = Some next) ∧
  _determine_next_agent chain "ui_designer" "looks good, proceed" project_data
  = Ok "frontend_engineer".
Proof.
  intros Hi Hlast Happroval. split.
  - destruct (approval_progression_successor i current_agent Hi Hlast)
      as (next & Htable & Hnext).
    exists next. split; [by apply approved_step | done].
  - reflexivity.
Qed.

Lemma approval_advances_to_successor_witness :
  settings.AGENT_CHAIN !! 2%nat = Some "ui_designer" ∧
  (3 < length settings.AGENT_CHAIN)%nat ∧
  Spec.has_approval_keyword "Looks good, proceed" ∧
  (∃ next,
     _determine_next_agent settings.AGENT_CHAIN "ui_designer" "Looks good, proceed"
       Sample.fresh = Ok next ∧
     dict_lookup approval_progression "ui_designer" = Some next ∧
     settings.AGENT_CHAIN !! 3%nat = Some next) ∧
  _determine_next_agent settings.AGENT_CHAIN "ui_designer" "looks good, proceed"
    Sample.fresh = Ok "frontend_engineer".
Proof.
  assert (Happroval : Spec.has_approval_keyword "Looks good, proceed").
  { exists "looks good". split; [simpl; tauto | reflexivity]. }
  split; [reflexivity |]. split; [simpl; lia |]. split; [exact Happroval |].
  apply (approval_advances_to_successor settings.AGENT_CHAIN 2 "ui_designer"
           "Looks good, proceed" Sample.fresh);
    [reflexivity | simpl; lia | exact Happroval].
Defined.

(** C7, as worded: a window of two turns comes back oldest first, and the
    limit 0 gives the whole log. *)
Lemma recent_context_not_most_recent_first :
  ¬ Claim.recent_context_most_recent_first
      (Sample.session [Sample.turn "first"; Sample.turn "second"]) 2 ∧
  ¬ Claim.recent_context_most_recent_first
      (Sample.session [Sample.turn "first"]) 0.
Proof.
  split; intros [Hlen Hprefix].
  - destruct Hprefix as [rest Hrest]. vm_compute in Hrest. discriminate.
  - vm_compute in Hlen. by apply Hlen.
Qed.

(** C7, amended. For every limit [n > 0] and every session log,
    [get_recent_context n] returns the last [min n (length log)] turns of
    the log, a suffix of it in the order of the log (oldest first), hence
    at most [n] turns. *)
Theorem recent_context_is_suffix s n :
  (0 < n)%Z →
  Session.get_recent_context s n `suffix_of` session_messages s ∧
  length (Session.get_recent_context s n)
  = Nat.min (Z.to_nat n) (length (session_messages s)) ∧
  (Z.of_nat (length (Session.get_recent_context s n)) ≤ n)%Z.
Proof.
  intros Hn. rewrite recent_context_positive by done.
  split; [apply suffix_drop |]. rewrite length_drop. lia.
Qed.

Lemma recent_context_is_suffix_witness :
  (0 < 1)%Z ∧
  Session.get_recent_context
    (Sample.session [Sample.turn "first"; Sample.turn "second"]) 1
  `suffix_of` [Sample.turn "first"; Sample.turn "second"] ∧
  length (Session.get_recent_context
            (Sample.session [Sample.turn "first"; Sample.turn "second"]) 1)
  = Nat.min (Z.to_nat 1) 2 ∧
  (Z.of_nat (length (Session.get_recent_context
                       (Sample.session [Sample.turn "first"; Sample.turn "second"]) 1))
   ≤ 1)%Z.
Proof.
  split; [lia |].
  apply (recent_context_is_suffix
           (Sample.session [Sample.turn "first"; Sample.turn "second"]) 1).
  lia.
Defined.

(** C8, as worded: for [code_generator] the reply "The handler is a def "
    contains the keyword "def " and so does the same reply padded in front
    to a trimmed length of 61, yet the padded reply has no substance: the
    classifier looks for the keyword in the trimmed reply, and the trim
    cuts the blank that ends the keyword. *)
Lemma keyword_cut_by_trim :
  ¬ Claim.substance_monotone_in_length "code_generator"
      "For the upload form of the task tracker: " "The handler is a def "
      EmptyString.
Proof.
  intros Hclaim. destruct Hclaim as [_ Hpadded].
  - simpl. tauto.
  - exists "def ". split; [simpl; tauto | reflexivity].
  - vm_compute. lia.
  - exists "def ". split; [simpl; tauto | reflexivity].
  - vm_compute. lia.
  - vm_compute in Hpadded. discriminate Hpadded.
Qed.

(** C8, amended. For every technical agent (frontend_engineer,
    data_architect, api_designer, devops, code_generator): a reply whose
    trimmed text carries a domain keyword of the agent (case ignored) and
    whose trimmed length is below 40 has no substance, and a reply whose
    trimmed text carries a domain keyword and whose trimmed length is 40 or
    more, such as the first one padded, has substance. *)
Theorem technical_substance_monotone_in_length agent_name short padded :
  In agent_name Spec.technical_agents →
  Spec.has_domain_keyword agent_name short →
  (Spec.trimmed_length short < 40)%nat →
  Spec.has_domain_keyword agent_name padded →
  (40 ≤ Spec.trimmed_length padded)%nat →
  _has_substantial_content short agent_name = false ∧
  _has_substantial_content padded agent_name = true.
Proof.
  intros Hagent _ Hshort Hkw Hlong.
  pose proof (technical_not_early agent_name Hagent) as Hearly.
  split; [by apply technical_below_40 | by apply technical_from_40].
Qed.

Lemma technical_substance_monotone_in_length_witness :
  In "data_architect" Spec.technical_agents ∧
  Spec.has_domain_keyword "data_architect" "Tasks go into one database table." ∧
  (Spec.trimmed_length "Tasks go into one database table." < 40)%nat ∧
  Spec.has_domain_keyword "data_architect"
    "Tasks go into one database table. .........." ∧
  (40 ≤ Spec.trimmed_length "Tasks go into one database table. ..........")%nat ∧
  _has_substantial_content "Tasks go into one database table." "data_architect" = false ∧
  _has_substantial_content "Tasks go into one database table. .........."
    "data_architect" = true.
Proof.
  assert (Hagent : In "data_architect" Spec.technical_agents) by (simpl; tauto).
  assert (Hkw1 : Spec.has_domain_keyword "data_architect"
                   "Tasks go into one database table.").
  { exists "database". split; [simpl; tauto | reflexivity]. }
  assert (Hkw2 : Spec.has_domain_keyword "data_architect"
                   "Tasks go into one database table. ..........").
  { exists "database". split; [simpl; tauto | reflexivity]. }
  assert (Hlen1 : (Spec.trimmed_length "Tasks go into one database table." < 40)%nat)
    by (vm_compute; lia).
  assert (Hlen2 : (40 ≤ Spec.trimmed_length
                          "Tasks go into one database table. ..........")%nat)
    by (vm_compute; lia).
  repeat (split; [assumption |]).
  apply (technical_substance_monotone_in_length "data_architect"
           "Tasks go into one database table."
           "Tasks go into one database table. .........."); assumption.
Defined.

(** C9, as worded: with an agent outside the catalog and the message
    "database" routing moves to [data_architect]; with the empty message
    at [requirements_evolver], whose record is substantial, routing moves
    to [ux_architect]. *)
Lemma malformed_input_can_switch_agent :
  ¬ Claim.degrades_conservatively "database" "bogus" Sample.fresh ∧
  ¬ Claim.degrades_conservatively EmptyString "requirements_evolver"
      (Sample.project Sample.two_records "requirements_evolver").
Proof.
  split; intros Hclaim.
  - destruct Hclaim as [_ Hroute].
    + right. unfold Spec.catalog. simpl. intuition discriminate.
    + vm_compute in Hroute. discriminate.
  - destruct Hclaim as [_ Hroute]; [by left |].
    vm_compute in Hroute. discriminate.
Qed.

(** C9, amended. For every text and every agent identifier, classification
    and routing return without raising. Classification answers
    no-substance when the text is empty or the agent is outside the
    catalog. Routing answers the current agent when that agent is outside
    the chain and the message carries no topic keyword, as the empty
    message does. *)
Theorem classification_and_routing_total chain text agent_name project_data :
  (∃ verdict next,
     _has_substantial_content text agent_name = verdict ∧
     _determine_next_agent chain agent_name text project_data = Ok next) ∧
  (text = EmptyString ∨ ¬ In agent_name Spec.catalog →
   _has_substantial_content text agent_name = false) ∧
  (¬ In agent_name settings.AGENT_CHAIN →
   Spec.mentions_topic text = false →
   _determine_next_agent settings.AGENT_CHAIN agent_name text project_data
   = Ok agent_name) ∧
  Spec.mentions_topic EmptyString = false.
Proof.
  split; [| split; [| split]].
  - destruct (determine_next_agent_total chain agent_name text project_data)
      as [next Hnext].
    by eexists _, next.
  - intros [-> | Hunknown];
      [apply empty_reply_rejected | by apply unknown_agent_rejected].
  - intros Houtside Hquiet.
    by apply determine_next_agent_outside, no_topic_no_switch.
  - reflexivity.
Qed.

Lemma classification_and_routing_total_witness :
  ¬ In "bogus" Spec.catalog ∧
  ¬ In "bogus" settings.AGENT_CHAIN ∧
  Spec.mentions_topic EmptyString = false ∧
  _has_substantial_content EmptyString "bogus" = false ∧
  _determine_next_agent settings.AGENT_CHAIN "bogus" EmptyString Sample.fresh = Ok "bogus".
Proof.
  assert (Hcatalog : ¬ In "bogus" Spec.catalog).
  { unfold Spec.catalog. simpl. intuition discriminate. }
  assert (Hchain : ¬ In "bogus" settings.AGENT_CHAIN).
  { simpl. intuition discriminate. }
  destruct (classification_and_routing_total settings.AGENT_CHAIN EmptyString "bogus"
              Sample.fresh) as (_ & Hclassify & Hroute & Hquiet).
  split; [exact Hcatalog |]. split; [exact Hchain |]. split; [exact Hquiet |].
  split; [apply Hclassify; by right | by apply Hroute].
Defined.

(** C10. For every project and every user message, the result that
    [route_message] returns has [should_generate = false], whatever the
    project's records are and whatever the readiness gate would say. *)
Theorem route_message_never_requests_generation
    now o project_id user_message outcome project_data :
  Storage.get_project (storage o) project_id = Ok project_data →
  ∃ o' r, route_message now o project_id user_message outcome = (o', Ok r) ∧
          should_generate r = false.
Proof.
  intros Hget.
  destruct (route_message_returns now o project_id user_message outcome _ Hget)
    as (o' & next & _ & _ & Hroute & _).
  by eexists _, _.
Qed.

Lemma route_message_never_requests_generation_witness :
  Storage.get_project
    (storage (Sample.orchestrator (Sample.project Sample.two_records "ux_architect")))
    "p1"
  = Ok (Sample.project Sample.two_records "ux_architect") ∧
  ∃ o' r,
    route_message 7
      (Sample.orchestrator (Sample.project Sample.two_records "ux_architect"))
      "p1" "add a dark theme"
      (Returns {| success := Some true;
                  response := Some "A dark theme with two accent colours." |})
    = (o', Ok r) ∧
    should_generate r = false.
Proof.
  split; [reflexivity |].
  apply (route_message_never_requests_generation 7
           (Sample.orchestrator (Sample.project Sample.two_records "ux_architect"))
           "p1" "add a dark theme"
           (Returns {| success := Some true;
                       response := Some "A dark theme with two accent colours." |})
           (Sample.project Sample.two_records "ux_architect")).
  reflexivity.
Defined.

(** * Further properties *)

(** ** Readiness gate *)

Section GateMore.

Import Orchestrator.

Implicit Types reqs : gmap string RequirementRecord.

Lemma substantial_count_insert reqs agent_name record :
  has_substance record = true →
  (Spec.substantial_count reqs
   ≤ Spec.substantial_count (<[agent_name := record]> reqs))%nat.
Proof.
  intros Hsub. unfold Spec.substantial_count.
  rewrite map_filter_insert_True by done. rewrite map_size_insert.
  destruct (filter _ reqs !! agent_name); simpl; lia.
Qed.

Lemma evolver_insert reqs agent_name record :
  has_substance record = true →
  Spec.evolver_has_substance reqs →
  Spec.evolver_has_substance (<[agent_name := record]> reqs).
Proof.
  intros Hsub (r & Hr & Hrsub). unfold Spec.evolver_has_substance.
  destruct (decide (agent_name = "requirements_evolver")) as [-> | Hne].
  - exists record. by rewrite lookup_insert_eq.
  - exists r. by rewrite lookup_insert_ne.
Qed.

Lemma eligible_insert reqs agent_name record :
  has_substance record = true →
  Spec.eligible reqs → Spec.eligible (<[agent_name := record]> reqs).
Proof.
  intros Hsub Helig.
  pose proof (substantial_count_insert reqs agent_name record Hsub) as Hcount.
  destruct Helig as [? | [[Hev ?] | ?]].
  - left. lia.
  - right; left. split; [by apply evolver_insert | lia].
  - right; right. lia.
Qed.

Lemma can_generate_code_project o project_id status :
  can_generate_code o project_id = Ok status →
  ∃ project_data,
    Storage.get_project (storage o) project_id = Ok project_data ∧
    can_generate status = _has_minimal_requirements project_data ∧
    substantial_agents status = Spec.substantial_count (requirements project_data) ∧
    status_message status
    = _get_generation_status_message (can_generate status) (substantial_agents status).
Proof.
  intros Hstatus.
  destruct (Storage.get_project (storage o) project_id) as [p | e] eqn:Hget.
  - exists p. split; [done |].
    destruct (can_generate_code_status o project_id p Hget) as (s & Hs & Hcan & Hn).
    rewrite Hstatus in Hs. injection Hs as <-. repeat split; [done .. |].
    unfold can_generate_code in Hstatus. rewrite Hget in Hstatus. simpl in Hstatus.
    destruct (foldl _ _ _) as [n names]. by injection Hstatus as <-.
  - unfold can_generate_code in Hstatus. by rewrite Hget in Hstatus.
Qed.

End GateMore.

Import Orchestrator.

(** X1. Once a project is reported ready, storing a substantial record,
    for a new agent or over an older record, leaves it ready and does not
    lower the number of substantial agents. *)
Theorem substantial_write_keeps_ready now o project_id status agent_name record :
  can_generate_code o project_id = Ok status →
  can_generate status = true →
  has_substance record = true →
  ∃ st' status',
    Storage.update_requirements now (storage o) project_id agent_name record
    = (st', Ok ()) ∧
    can_generate_code (set_storage o st') project_id = Ok status' ∧
    can_generate status' = true ∧
    (substantial_agents status ≤ substantial_agents status')%nat.
Proof.
  intros Hstatus Hready Hsub.
  destruct (can_generate_code_project o project_id status Hstatus)
    as (p & Hget & Hcan & Hn & _).
  destruct (update_requirements_ok now (storage o) project_id agent_name record p Hget)
    as (st' & Hupd & Hget').
  destruct (can_generate_code_status (set_storage o st') project_id _ Hget')
    as (status' & Hstatus' & Hcan' & Hn').
  exists st', status'. repeat split; [done .. | |].
  - rewrite Hcan'. apply has_minimal_requirements_eligible. simpl.
    apply eligible_insert; [done |].
    apply has_minimal_requirements_eligible. by rewrite <- Hcan.
  - rewrite Hn, Hn'. simpl. by apply substantial_count_insert.
Qed.

Lemma substantial_write_keeps_ready_witness :
  ∃ status,
    can_generate_code
      (Sample.orchestrator (Sample.project Sample.two_records "ux_architect")) "p1"
    = Ok status ∧
    can_generate status = true ∧
    has_substance (Sample.requirement "ui_designer" true) = true ∧
    ∃ st' status',
      Storage.update_requirements 7
        (storage (Sample.orchestrator (Sample.project Sample.two_records "ux_architect")))
        "p1" "ui_designer" (Sample.requirement "ui_designer" true)
      = (st', Ok ()) ∧
      can_generate_code
        (set_storage
           (Sample.orchestrator (Sample.project Sample.two_records "ux_architect")) st')
        "p1" = Ok status' ∧
      can_generate status' = true ∧
      (substantial_agents status ≤ substantial_agents status')%nat.
Proof.
  eexists. split; [vm_compute; reflexivity |]. split; [reflexivity |].
  split; [reflexivity |].
  apply (substantial_write_keeps_ready 7
           (Sample.orchestrator (Sample.project Sample.two_records "ux_architect"))
           "p1" _ "ui_designer" (Sample.requirement "ui_designer" true));
    [vm_compute; reflexivity | reflexivity | reflexivity].
Defined.

(** X2. When the readiness gate answers that a project is not ready, at
    most two agents are substantial and the message is one of the three
    progress messages for zero, one and two agents: the "Almost ready"
    message is never produced. *)
Theorem not_ready_status o project_id status :
  can_generate_code o project_id = Ok status →
  can_generate status = false →
  (substantial_agents status ≤ 2)%nat ∧
  In (status_message status) Spec.not_ready_messages.
Proof.
  intros Hstatus Hnot.
  destruct (can_generate_code_project o project_id status Hstatus)
    as (p & _ & Hcan & Hn & Hmsg).
  assert (Hle : (substantial_agents status ≤ 2)%nat).
  { rewrite Hnot in Hcan. symmetry in Hcan.
    apply not_true_iff_false in Hcan.
    rewrite has_minimal_requirements_eligible in Hcan.
    unfold Spec.eligible in Hcan. rewrite <- Hn in Hcan. lia. }
  split; [done |]. rewrite Hmsg, Hnot.
  destruct (substantial_agents status) as [| [| [| n]]]; simpl; [tauto .. | lia].
Qed.

Lemma not_ready_status_witness :
  ∃ status,
    can_generate_code (Sample.orchestrator Sample.fresh) "p1" = Ok status ∧
    can_generate status = false ∧
    (substantial_agents status ≤ 2)%nat ∧
    In (status_message status) Spec.not_ready_messages.
Proof.
  eexists. split; [vm_compute; reflexivity |]. split; [reflexivity |].
  apply (not_ready_status (Sample.orchestrator Sample.fresh) "p1");
    [vm_compute; reflexivity | reflexivity].
Defined.

(** ** Routing policy *)

Section RoutingMore.

Import Orchestrator.

Lemma bind_ok {A B} (a : A) (k : A → result B) : (Ok a ≫= k) = k a.
Proof. reflexivity. Qed.

Lemma first_keyword_match_key (table : dict (list string)) m agent_name :
  first_keyword_match table m = Some agent_name → In agent_name (dict_keys table).
Proof.
  induction table as [| [k kws] rest IH]; simpl; [done |].
  destruct (PyStr.any_in kws m); [intros [= <-]; by left | right; by apply IH].
Qed.

Lemma dict_lookup_value {V} (d : dict V) k v :
  dict_lookup d k = Some v → In v (map snd d).
Proof.
  induction d as [| [k' v'] d IH]; simpl; [done |].
  destruct (String.eqb k k'); [intros [= <-]; by left | right; by apply IH].
Qed.

Lemma list_index_found x xs n :
  list_index x xs = Ok n → xs !! n = Some x.
Proof.
  revert n. induction xs as [| y ys IH]; intros n; simpl; [done |].
  destruct (String.eqb_spec y x) as [-> | _]; [by intros [= <-] |].
  destruct (list_index x ys) as [m | e]; simpl; [| done].
  intros [= <-]. by apply IH.
Qed.

Lemma list_index_position x xs i :
  NoDup xs → xs !! i = Some x → list_index x xs = Ok i.
Proof.
  revert i. induction xs as [| y ys IH]; intros i Hnd Hi; [done |].
  apply NoDup_cons in Hnd as [Hy Hnd]. simpl.
  destruct i as [| i]; simpl in Hi.
  - injection Hi as ->. by rewrite String.eqb_refl.
  - destruct (String.eqb_spec y x) as [-> | _].
    + destruct Hy. by eapply list_elem_of_lookup_2.
    + by rewrite (IH i Hnd Hi).
Qed.

Lemma agent_chain_NoDup : NoDup settings.AGENT_CHAIN.
Proof. by apply (bool_decide_unpack _). Qed.

Lemma progress_switch_in_chain chain current_agent project_data next :
  progress_switch chain current_agent project_data = Ok next →
  next = current_agent ∨ In next chain.
Proof.
  unfold progress_switch.
  destruct (PyStr.mem current_agent chain); [| intros [= <-]; by left].
  destruct (list_index current_agent chain) as [n | e]; simpl; [| done].
  destruct (_ && _); [| intros [= <-]; by left].
  unfold list_item. destruct (chain !! (n + 1)%nat) as [x |] eqn:Hx; [| done].
  intros [= <-]. right. apply list_elem_of_In. by eapply list_elem_of_lookup_2.
Qed.

(** Routing answers the current agent or an agent of the chain. *)
Lemma determine_next_agent_in_chain current_agent user_message project_data next :
  _determine_next_agent settings.AGENT_CHAIN current_agent user_message project_data
  = Ok next →
  next = current_agent ∨ In next settings.AGENT_CHAIN.
Proof.
  unfold _determine_next_agent, topic_switch.
  assert (Htopic :
    match first_keyword_match agent_keywords (PyStr.lower user_message) with
    | Some a => Ok a
    | None => progress_switch settings.AGENT_CHAIN current_agent project_data
    end = Ok next → next = current_agent ∨ In next settings.AGENT_CHAIN).
  { destruct (first_keyword_match _ _) as [a |] eqn:Ha.
    - intros [= <-]. right. apply first_keyword_match_key in Ha.
      simpl in Ha. unfold settings.AGENT_CHAIN. simpl. tauto.
    - apply progress_switch_in_chain. }
  destruct (PyStr.any_in approval_keywords _); [| done].
  destruct (PyStr.mem _ (dict_keys _)); [| done].
  unfold dict_item.
  destruct (dict_lookup approval_progression current_agent) as [v |] eqn:Hv; [| done].
  intros [= <-]. right. apply dict_lookup_value in Hv.
  simpl in Hv. unfold settings.AGENT_CHAIN. simpl. tauto.
Qed.

Lemma quiet_message_routing chain current_agent user_message project_data :
  Spec.mentions_topic user_message = false →
  (¬ Spec.has_approval_keyword user_message ∨
   ¬ In current_agent (dict_keys approval_progression)) →
  _determine_next_agent chain current_agent user_message project_data
  = progress_switch chain current_agent project_data.
Proof.
  intros Hquiet Hno. unfold _determine_next_agent, topic_switch.
  rewrite (no_topic_no_switch _ Hquiet).
  destruct (PyStr.any_in approval_keywords _) eqn:Happ; [| done].
  destruct Hno as [Hno | Hno].
  - destruct Hno. by apply approval_iff.
  - by rewrite (proj2 (mem_false _ _) Hno).
Qed.

Lemma progress_switch_stays chain current_agent project_data :
  Spec.has_contributed current_agent project_data = false →
  (Spec.turns_of current_agent project_data < 2)%nat →
  progress_switch chain current_agent project_data = Ok current_agent.
Proof.
  unfold Spec.has_contributed, Spec.turns_of, progress_switch. intros -> Hturns.
  destruct (PyStr.mem current_agent chain) eqn:Hmem; [| done].
  destruct (list_index_mem _ _ Hmem) as (n & -> & _). rewrite bind_ok.
  apply Nat.leb_gt in Hturns. by rewrite Hturns.
Qed.

Lemma progress_switch_advances chain i current_agent project_data next :
  NoDup chain →
  chain !! i = Some current_agent →
  chain !! S i = Some next →
  Spec.has_contributed current_agent project_data = true ∨
  (2 ≤ Spec.turns_of current_agent project_data)%nat →
  progress_switch chain current_agent project_data = Ok next.
Proof.
  unfold Spec.has_contributed, Spec.turns_of, progress_switch.
  intros Hnd Hi Hnext Hprogress.
  rewrite (proj2 (mem_true _ _)) by (apply list_elem_of_In; by eapply list_elem_of_lookup_2).
  rewrite (list_index_position _ _ _ Hnd Hi), bind_ok.
  assert (Hlt : (S i < length chain)%nat) by (by eapply lookup_lt_Some).
  replace (Z.of_nat i <? Z.of_nat (length chain) - 1)%Z with true
    by (symmetry; apply Z.ltb_lt; lia).
  replace (_ || _) with true.
  - cbn [andb]. unfold list_item. by rewrite Nat.add_1_r, Hnext.
  - symmetry. apply orb_true_iff.
    destruct Hprogress as [-> | Hturns]; [by left | right; by apply Nat.leb_le].
Qed.

Lemma progress_switch_last chain i current_agent project_data :
  NoDup chain →
  chain !! i = Some current_agent →
  S i = length chain →
  progress_switch chain current_agent project_data = Ok current_agent.
Proof.
  intros Hnd Hi Hlast. unfold progress_switch.
  rewrite (proj2 (mem_true _ _)) by (apply list_elem_of_In; by eapply list_elem_of_lookup_2).
  rewrite (list_index_position _ _ _ Hnd Hi), bind_ok.
  replace (Z.of_nat i <? Z.of_nat (length chain) - 1)%Z with false
    by (symmetry; apply Z.ltb_ge; lia).
  by rewrite andb_false_r.
Qed.

End RoutingMore.

(** X3. Routing never leaves the agent chain: from a current agent of the
    chain, whatever the message and the project hold, the next agent is an
    agent of the chain. *)
Theorem routing_stays_in_chain current_agent user_message project_data :
  In current_agent settings.AGENT_CHAIN →
  ∃ next,
    _determine_next_agent settings.AGENT_CHAIN current_agent user_message
      project_data = Ok next ∧
    In next settings.AGENT_CHAIN.
Proof.
  intros Hcur.
  destruct (determine_next_agent_total settings.AGENT_CHAIN current_agent
              user_message project_data) as [next Hnext].
  exists next. split; [done |].
  by destruct (determine_next_agent_in_chain _ _ _ _ Hnext) as [-> | ?].
Qed.

Lemma routing_stays_in_chain_witness :
  In "ux_architect" settings.AGENT_CHAIN ∧
  ∃ next,
    _determine_next_agent settings.AGENT_CHAIN "ux_architect"
      "which database stores the tasks?" Sample.fresh = Ok next ∧
    In next settings.AGENT_CHAIN.
Proof.
  assert (Hin : In "ux_architect" settings.AGENT_CHAIN) by (simpl; tauto).
  split; [exact Hin |].
  apply (routing_stays_in_chain "ux_architect" "which database stores the tasks?"
           Sample.fresh Hin).
Defined.

(** X4. Routing is idle without a signal: when the message carries no
    approval keyword and no topic keyword, and the current agent has no
    substantial record and fewer than two turns tagged with it, the next
    agent is the current agent. *)
Theorem routing_idle_without_signal chain current_agent user_message project_data :
  ¬ Spec.has_approval_keyword user_message →
  Spec.mentions_topic user_message = false →
  Spec.has_contributed current_agent project_data = false →
  (Spec.turns_of current_agent project_data < 2)%nat →
  _determine_next_agent chain current_agent user_message project_data
  = Ok current_agent.
Proof.
  intros Hno Hquiet Hnone Hturns.
  rewrite quiet_message_routing by auto.
  by apply progress_switch_stays.
Qed.

Lemma routing_idle_without_signal_witness :
  ¬ Spec.has_approval_keyword "hello there" ∧
  Spec.mentions_topic "hello there" = false ∧
  Spec.has_contributed "requirements_evolver" Sample.fresh = false ∧
  (Spec.turns_of "requirements_evolver" Sample.fresh < 2)%nat ∧
  _determine_next_agent settings.AGENT_CHAIN "requirements_evolver" "hello there"
    Sample.fresh = Ok "requirements_evolver".
Proof.
  assert (Hno : ¬ Spec.has_approval_keyword "hello there").
  { rewrite approval_iff. vm_compute. discriminate. }
  assert (Hturns : (Spec.turns_of "requirements_evolver" Sample.fresh < 2)%nat)
    by (vm_compute; lia).
  split; [exact Hno |]. split; [reflexivity |]. split; [reflexivity |].
  split; [exact Hturns |].
  apply (routing_idle_without_signal settings.AGENT_CHAIN "requirements_evolver"
           "hello there" Sample.fresh Hno eq_refl eq_refl Hturns).
Defined.

(** X5. Progress-based advance: when the message carries no approval
    keyword and no topic keyword, and the current agent, not the last of
    the chain, has a substantial record or at least two turns tagged with
    it, the next agent is its successor in the chain. *)
Theorem routing_advances_on_progress i current_agent user_message project_data next :
  settings.AGENT_CHAIN !! i = Some current_agent →
  settings.AGENT_CHAIN !! S i = Some next →
  ¬ Spec.has_approval_keyword user_message →
  Spec.mentions_topic user_message = false →
  Spec.has_contributed current_agent project_data = true ∨
  (2 ≤ Spec.turns_of current_agent project_data)%nat →
  _determine_next_agent settings.AGENT_CHAIN current_agent user_message project_data
  = Ok next.
Proof.
  intros Hi Hnext Hno Hquiet Hprogress.
  rewrite quiet_message_routing by auto.
  by apply (progress_switch_advances _ i _ _ _ agent_chain_NoDup).
Qed.

Lemma routing_advances_on_progress_witness :
  settings.AGENT_CHAIN !! 0%nat = Some "requirements_evolver" ∧
  settings.AGENT_CHAIN !! 1%nat = Some "ux_architect" ∧
  ¬ Spec.has_approval_keyword "hello there" ∧
  Spec.mentions_topic "hello there" = false ∧
  (Spec.has_contributed "requirements_evolver"
     (Sample.project Sample.two_records "requirements_evolver") = true ∨
   (2 ≤ Spec.turns_of "requirements_evolver"
          (Sample.project Sample.two_records "requirements_evolver"))%nat) ∧
  _determine_next_agent settings.AGENT_CHAIN "requirements_evolver" "hello there"
    (Sample.project Sample.two_records "requirements_evolver") = Ok "ux_architect".
Proof.
  assert (Hno : ¬ Spec.has_approval_keyword "hello there").
  { rewrite approval_iff. vm_compute. discriminate. }
  assert (Hprogress :
    Spec.has_contributed "requirements_evolver"
      (Sample.project Sample.two_records "requirements_evolver") = true ∨
    (2 ≤ Spec.turns_of "requirements_evolver"
           (Sample.project Sample.two_records "requirements_evolver"))%nat)
    by (left; reflexivity).
  split; [reflexivity |]. split; [reflexivity |]. split; [exact Hno |].
  split; [reflexivity |]. split; [exact Hprogress |].
  apply (routing_advances_on_progress 0 "requirements_evolver" "hello there"
           (Sample.project Sample.two_records "requirements_evolver") "ux_architect"
           eq_refl eq_refl Hno eq_refl Hprogress).
Defined.

(** X6. The last agent of the chain is left only by a topic keyword: at
    [devops] a message without topic keyword keeps [devops], also when it
    carries an approval keyword and whatever progress the project shows. *)
Theorem last_agent_stays user_message project_data :
  Spec.mentions_topic user_message = false →
  _determine_next_agent settings.AGENT_CHAIN "devops" user_message project_data
  = Ok "devops".
Proof.
  intros Hquiet. rewrite quiet_message_routing; [| done |].
  - by apply (progress_switch_last _ 6 _ _ agent_chain_NoDup).
  - right. simpl. intuition discriminate.
Qed.

Lemma last_agent_stays_witness :
  Spec.mentions_topic "yes, approved" = false ∧
  _determine_next_agent settings.AGENT_CHAIN "devops" "yes, approved"
    (Sample.project Sample.two_records "devops") = Ok "devops".
Proof.
  split; [reflexivity |].
  apply (last_agent_stays "yes, approved" (Sample.project Sample.two_records "devops")).
  reflexivity.
Defined.

(** ** Letter case and white space *)

Section StringsMore.











Lemma len_app s t : PyStr.len (s ++ t) = (PyStr.len s + PyStr.len t)%nat.
Proof.
  unfold PyStr.len. induction s as [| c s IH]; simpl; [done |]. by rewrite IH.
Qed.

Lemma len_take n s : (PyStr.len (PyStr.take n s) ≤ n)%nat.
Proof.
  unfold PyStr.len. revert s. induction n as [| n IH]; intros [| c s]; simpl; try lia.
  specialize (IH s). lia.
Qed.

Lemma lstrip_blank s : Spec.blank s = true → PyStr.lstrip s = EmptyString.
Proof.
  induction s as [| c s IH]; simpl; [done |].
  rewrite andb_true_iff. intros [-> Hs]. by apply IH.
Qed.

Lemma lstrip_blank_app pre s :
  Spec.blank pre = true → PyStr.lstrip (pre ++ s) = PyStr.lstrip s.
Proof.
  induction pre as [| c pre IH]; simpl; [done |].
  rewrite andb_true_iff. intros [-> Hpre]. by apply IH.
Qed.

Lemma rstrip_blank s : Spec.blank s = true → PyStr.rstrip s = EmptyString.
Proof.
  induction s as [| c s IH]; simpl; [done |].
  rewrite andb_true_iff. intros [-> Hs]. by rewrite IH.
Qed.

Lemma rstrip_app_blank s post :
  Spec.blank post = true → PyStr.rstrip (s ++ post) = PyStr.rstrip s.
Proof.
  intros Hpost. induction s as [| c s IH]; simpl; [by apply rstrip_blank |].
  by rewrite IH.
Qed.

Lemma strip_app_blank s post :
  Spec.blank post = true → PyStr.strip (s ++ post) = PyStr.strip s.
Proof.
  intros Hpost. unfold PyStr.strip. induction s as [| c s IH].
  - change (PyStr.rstrip (PyStr.lstrip post) = EmptyString).
    by rewrite lstrip_blank.
  - change (String c s ++ post) with (String c (s ++ post)).
    cbn [PyStr.lstrip]. destruct (PyStr.is_space c); [done |].
    by apply (rstrip_app_blank (String c s)).
Qed.

(** Trimming drops a blank margin. *)
Lemma strip_padded pre s post :
  Spec.blank pre = true → Spec.blank post = true →
  PyStr.strip (pre ++ s ++ post) = PyStr.strip s.
Proof.
  intros Hpre Hpost. unfold PyStr.strip at 1. rewrite lstrip_blank_app by done.
  by apply strip_app_blank.
Qed.

Lemma strip_empty_len s : PyStr.truthy s = false → PyStr.len (PyStr.strip s) = 0%nat.
Proof. by destruct s. Qed.

End StringsMore.

(** ** Substance classifier *)

Section ClassifierMore.

Import Orchestrator.

(** The verdict is a function of the trimmed reply. *)
Lemma classifier_reads_trimmed r r' agent_name :
  PyStr.strip r = PyStr.strip r' →
  _has_substantial_content r agent_name = _has_substantial_content r' agent_name.
Proof.
  intros Hstrip. unfold _has_substantial_content. rewrite <- Hstrip.
  destruct (PyStr.truthy r) eqn:Hr, (PyStr.truthy r') eqn:Hr'; try done.
  - apply strip_empty_len in Hr'. rewrite <- Hstrip in Hr'. by rewrite Hr'.
  - apply strip_empty_len in Hr. by rewrite Hr.
Qed.



Lemma early_verdict r agent_name :
  PyStr.mem agent_name early_agents = true →
  _has_substantial_content r agent_name = true →
  (30 ≤ Spec.trimmed_length r)%nat.
Proof.
  unfold _has_substantial_content, Spec.trimmed_length. intros ->.
  destruct (negb _ || _); [done |].
  rewrite andb_true_iff, Nat.leb_le. tauto.
Qed.

Lemma technical_verdict r agent_name :
  PyStr.mem agent_name early_agents = false →
  _has_substantial_content r agent_name = true →
  (40 ≤ Spec.trimmed_length r)%nat ∧
  In agent_name Spec.technical_agents ∧
  Spec.has_domain_keyword agent_name r.
Proof.
  unfold _has_substantial_content, Spec.trimmed_length, Spec.has_domain_keyword.
  intros ->. destruct (negb _ || _); [done |].
  rewrite andb_true_iff, Nat.leb_le, any_in_true. intros [Hlen (kw & Hin & Hkw)].
  split; [done |]. split; [| eauto].
  unfold dict_get in Hin.
  destruct (dict_lookup technical_indicators agent_name) as [kws |] eqn:Hlookup;
    [| destruct Hin].
  apply dict_lookup_Some_mem, mem_true in Hlookup. exact Hlookup.
Qed.

End ClassifierMore.

(** An early-stage reply of 80 characters or more passes the classifier. *)
Lemma early_reply_of_80 agent_name reply :
  In agent_name early_agents →
  (80 ≤ Spec.trimmed_length reply)%nat →
  _has_substantial_content reply agent_name = true.
Proof.
  unfold Spec.trimmed_length. intros Hearly Hlen.
  unfold _has_substantial_content.
  rewrite (proj2 (mem_true _ _) Hearly), strip_nonempty by lia.
  replace (PyStr.len (PyStr.strip reply) <? 25)%nat with false
    by (symmetry; apply Nat.ltb_ge; lia).
  replace (PyStr.len (PyStr.strip reply) <? 80)%nat with false
    by (symmetry; apply Nat.ltb_ge; lia).
  cbn [negb orb]. rewrite andb_false_r. cbn [andb negb].
  rewrite andb_true_r. apply Nat.leb_le. lia.
Qed.



(** X8. Substance classification ignores a margin of white space: a reply
    with white space added before and after gets the verdict of the reply
    itself. *)
Theorem padding_is_ignored pre reply post agent_name :
  Spec.blank pre = true →
  Spec.blank post = true →
  _has_substantial_content (pre ++ reply ++ post) agent_name
  = _has_substantial_content reply agent_name.
Proof.
  intros Hpre Hpost. apply classifier_reads_trimmed. by apply strip_padded.
Qed.

Lemma padding_is_ignored_witness :
  Spec.blank "  " = true ∧
  Spec.blank (String "010"%char EmptyString) = true ∧
  _has_substantial_content
    ("  " ++ "Every task has a title and a due date."
          ++ String "010"%char EmptyString) "requirements_evolver"
  = _has_substantial_content "Every task has a title and a due date."
      "requirements_evolver".
Proof.
  split; [reflexivity |]. split; [reflexivity |].
  apply (padding_is_ignored "  " "Every task has a title and a due date."
           (String "010"%char EmptyString) "requirements_evolver");
    reflexivity.
Defined.

(** X9. A reply has substance only if its trimmed length is at least 30;
    for an agent that is not an early-stage agent, only if moreover the
    agent is one of the five technical agents, the trimmed length is at
    least 40 and the reply carries one of the agent's domain keywords. *)
Theorem substance_needs agent_name reply :
  _has_substantial_content reply agent_name = true →
  (30 ≤ Spec.trimmed_length reply)%nat ∧
  (PyStr.mem agent_name early_agents = false →
   (40 ≤ Spec.trimmed_length reply)%nat ∧
   In agent_name Spec.technical_agents ∧
   Spec.has_domain_keyword agent_name reply).
Proof.
  intros Hsub. destruct (PyStr.mem agent_name early_agents) eqn:Hearly.
  - split; [by eapply early_verdict | done].
  - destruct (technical_verdict reply agent_name Hearly Hsub) as (Hlen & Hagent & Hkw).
    split; [lia | done].
Qed.

Lemma substance_needs_witness :
  _has_substantial_content
    "Tasks are stored in a database table with one row per task." "data_architect"
  = true ∧
  (30 ≤ Spec.trimmed_length
          "Tasks are stored in a database table with one row per task.")%nat ∧
  (PyStr.mem "data_architect" early_agents = false →
   (40 ≤ Spec.trimmed_length
           "Tasks are stored in a database table with one row per task.")%nat ∧
   In "data_architect" Spec.technical_agents ∧
   Spec.has_domain_keyword "data_architect"
     "Tasks are stored in a database table with one row per task.").
Proof.
  split; [reflexivity |].
  apply (substance_needs "data_architect"
           "Tasks are stored in a database table with one row per task.").
  reflexivity.
Defined.

(** X10. For the three early-stage agents every reply whose trimmed
    length is 80 or more has substance, a question included; a clarifying
    question is only turned down below 80 characters. *)
Theorem early_long_reply_has_substance agent_name reply :
  In agent_name early_agents →
  (80 ≤ Spec.trimmed_length reply)%nat →
  _has_substantial_content reply agent_name = true.
Proof. apply early_reply_of_80. Qed.

Lemma early_long_reply_has_substance_witness :
  In "ux_architect" early_agents ∧
  (80 ≤ Spec.trimmed_length
          "Before I sketch the navigation, can you tell me which of the pages matter most to you?")%nat ∧
  _has_substantial_content
    "Before I sketch the navigation, can you tell me which of the pages matter most to you?"
    "ux_architect" = true.
Proof.
  assert (Hin : In "ux_architect" early_agents) by (simpl; tauto).
  assert (Hlen : (80 ≤ Spec.trimmed_length
    "Before I sketch the navigation, can you tell me which of the pages matter most to you?")%nat)
    by (vm_compute; lia).
  split; [exact Hin |]. split; [exact Hlen |].
  apply (early_long_reply_has_substance "ux_architect" _ Hin Hlen).
Defined.

(** ** Requirement extraction *)

Section ExtractionMore.

Import Orchestrator.

Lemma hex_run_take n s :
  hex_run n s = true →
  PyStr.len (PyStr.take n s) = n ∧ hex_run n (PyStr.take n s) = true.
Proof.
  unfold PyStr.len. revert s. induction n as [| n IH]; intros [| c s]; simpl; try done.
  rewrite andb_true_iff. intros [-> Hs]. destruct (IH s Hs) as [-> ->]. done.
Qed.

Lemma find_colors_hex skip s :
  Forall (λ digits, (PyStr.len digits = 3%nat ∨ PyStr.len digits = 6%nat) ∧
                    hex_run (PyStr.len digits) digits = true)
    (find_colors skip s).
Proof.
  revert skip. induction s as [| c s IH]; intros skip; cbn [find_colors];
    [constructor |].
  destruct skip as [| k]; [| apply IH].
  destruct (Ascii.eqb c "#"); [| apply IH].
  destruct (hex_run 6 s) eqn:H6.
  { constructor; [| apply IH].
    destruct (hex_run_take 6 s H6) as [Hlen Hhex]. rewrite Hlen. auto. }
  destruct (hex_run 3 s) eqn:H3; [| apply IH].
  constructor; [| apply IH].
  destruct (hex_run_take 3 s H3) as [Hlen Hhex]. rewrite Hlen. auto.
Qed.

Lemma hex_colour_of_digits digits :
  (PyStr.len digits = 3%nat ∨ PyStr.len digits = 6%nat) ∧
  hex_run (PyStr.len digits) digits = true →
  Spec.hex_colour ("#" ++ digits).
Proof. intros [Hlen Hhex]. by exists digits. Qed.

Lemma Forall_map_firstn {A B} (P : A → Prop) (Q : B → Prop) (f : A → B) n l :
  (∀ x, P x → Q (f x)) → Forall P l → Forall Q (map f (firstn n l)).
Proof.
  intros HPQ Hl. revert n. induction Hl as [| x l Hx Hl IH]; intros [| n]; simpl;
    constructor; auto.
Qed.

End ExtractionMore.

(** X11. The summary stored with a requirement record is never longer
    than 200 characters, and a response of at most 200 characters is its
    own summary. *)
Theorem summary_at_most_200 response :
  (PyStr.len (_create_intelligent_summary response) ≤ 200)%nat ∧
  ((PyStr.len response ≤ 200)%nat → _create_intelligent_summary response = response).
Proof.
  unfold _create_intelligent_summary.
  destruct (PyStr.len response <=? 200)%nat eqn:Hshort.
  - apply Nat.leb_le in Hshort. done.
  - apply Nat.leb_gt in Hshort. split; [| lia].
    destruct (200 <? _)%nat eqn:Hlong.
    + rewrite len_app.
      pose proof (len_take 197
        (PyStr.join newline (meaningful_lines [] (PyStr.split "010" response)))).
      change (PyStr.len "...") with 3%nat. lia.
    + by apply Nat.ltb_ge in Hlong.
Qed.

Lemma summary_at_most_200_witness :
  (PyStr.len (_create_intelligent_summary "A task tracker for small teams.") ≤ 200)%nat ∧
  (PyStr.len "A task tracker for small teams." ≤ 200)%nat ∧
  _create_intelligent_summary "A task tracker for small teams."
  = "A task tracker for small teams.".
Proof.
  assert (Hlen : (PyStr.len "A task tracker for small teams." ≤ 200)%nat)
    by (vm_compute; lia).
  destruct (summary_at_most_200 "A task tracker for small teams.") as [Hbound Hsame].
  split; [exact Hbound |]. split; [exact Hlen | exact (Hsame Hlen)].
Defined.

(** X12. The technical specs carry colours only for [ui_designer], and
    then between one and three of them, each a [#] followed by three or
    six hexadecimal digits. *)
Theorem technical_specs_colours response agent_name :
  (agent_name ≠ "ui_designer" →
   _extract_technical_specs response agent_name !! "colors" = None) ∧
  (∀ v, _extract_technical_specs response agent_name !! "colors" = Some v →
        ∃ colours, v = SpecList colours ∧
                   (1 ≤ length colours ≤ 3)%nat ∧
                   Forall Spec.hex_colour colours).
Proof.
  unfold _extract_technical_specs. cbv zeta.
  match goal with
  | |- context [if String.eqb agent_name "ui_designer" then _ else ?base] =>
      assert (Hbase : base !! "colors" = None);
      [ repeat match goal with
               | |- context [if ?b then _ else _] => destruct b
               end;
        rewrite ?lookup_insert_ne by done; apply lookup_empty
      | set (specs := base) in * ]
  end.
  split.
  - intros Hne. apply String.eqb_neq in Hne. by rewrite Hne.
  - intros v. destruct (String.eqb agent_name "ui_designer"); [| by rewrite Hbase].
    pose proof (find_colors_hex 0 response) as Hhex.
    destruct (find_colors 0 response) as [| c cs]; [by rewrite Hbase |].
    rewrite lookup_insert_eq. intros [= <-]. eexists. split; [reflexivity |].
    split.
    + destruct cs as [| c2 [| c3 cs]]; simpl; lia.
    + apply (Forall_map_firstn _ Spec.hex_colour (fun color => "#" ++ color)
               3 (c :: cs) hex_colour_of_digits Hhex).
Qed.

Lemma technical_specs_colours_witness :
  "data_architect" ≠ "ui_designer" ∧
  _extract_technical_specs "A dark theme in #1a2b3c." "data_architect" !! "colors" = None ∧
  _extract_technical_specs "A dark theme in #1a2b3c." "ui_designer" !! "colors"
  = Some (SpecList ["#1a2b3c"]) ∧
  ∃ colours, SpecList ["#1a2b3c"] = SpecList colours ∧
             (1 ≤ length colours ≤ 3)%nat ∧
             Forall Spec.hex_colour colours.
Proof.
  assert (Hne : "data_architect" ≠ "ui_designer") by discriminate.
  assert (Hui : _extract_technical_specs "A dark theme in #1a2b3c." "ui_designer"
                !! "colors" = Some (SpecList ["#1a2b3c"])) by (vm_compute; reflexivity).
  split; [exact Hne |].
  split; [exact (proj1 (technical_specs_colours _ "data_architect") Hne) |].
  split; [exact Hui |].
  exact (proj2 (technical_specs_colours _ "ui_designer") _ Hui).
Defined.

(** ** The facade and the store *)

Section FacadeMore.

Import Orchestrator.

Lemma set_storage_same o : set_storage o (storage o) = o.
Proof. by destruct o. Qed.

Lemma update_agent_state_messages now s agent_name updates :
  session_messages (Session.update_agent_state now s agent_name updates)
  = session_messages s.
Proof.
  unfold Session.update_agent_state, Session.get_agent_state.
  by destruct (agent_states s !! agent_name).
Qed.

(** The record that a turn stores for the agent that answered. *)
Lemma route_message_project now o project_id text outcome project_data :
  Storage.get_project (storage o) project_id = Ok project_data →
  ∃ o' next,
    route_message now o project_id text outcome
    = (o', Ok {| route_message_text := _run_single_agent outcome;
                 route_agent := next;
                 should_generate := false |}) ∧
    _determine_next_agent (agent_chain o)
      (default "requirements_evolver" (active_agent project_data))
      text project_data = Ok next ∧
    agent_chain o' = agent_chain o ∧
    Storage.get_project (storage o') project_id
    = Ok (Storage.touch now
            (Storage.with_requirement next
               {| full_response := _run_single_agent outcome;
                  user_message := text;
                  summary := _create_intelligent_summary (_run_single_agent outcome);
                  technical_specs :=
                    _extract_technical_specs (_run_single_agent outcome) next;
                  req_timestamp := now;
                  req_agent := next;
                  has_substance :=
                    _has_substantial_content (_run_single_agent outcome) next |}
               (if negb (String.eqb next
                           (default "requirements_evolver" (active_agent project_data)))
                then Storage.touch now (Storage.with_active_agent next project_data)
                else project_data))).
Proof.
  intros Hget. unfold route_message. rewrite Hget.
  destruct (determine_next_agent_total (agent_chain o)
              (default "requirements_evolver" (active_agent project_data))
              text project_data) as [next Hnext].
  rewrite Hnext.
  assert (Hactive : ∃ st1,
    (if negb (String.eqb next (default "requirements_evolver" (active_agent project_data)))
     then Storage.set_active_agent now (storage o) project_id next
     else (storage o, Ok ())) = (st1, Ok ()) ∧
    Storage.get_project st1 project_id
    = Ok (if negb (String.eqb next
                     (default "requirements_evolver" (active_agent project_data)))
          then Storage.touch now (Storage.with_active_agent next project_data)
          else project_data)).
  { destruct (negb _).
    - destruct (set_active_agent_ok now _ _ next _ Hget) as (st1 & -> & Hp1).
      by eexists.
    - by eexists. }
  destruct Hactive as (st1 & -> & Hp1).
  unfold _extract_requirements_enhanced.
  match goal with
  | |- context [Storage.update_requirements now st1 project_id next ?r] =>
      destruct (update_requirements_ok now st1 project_id next r _ Hp1)
        as (st2 & -> & Hp2)
  end.
  eexists _, next. split; [reflexivity |]. split; [done |]. split; [done |].
  exact Hp2.
Qed.

End FacadeMore.

(** X13. A turn on an existing project writes exactly one requirement
    record, for the agent that answered: it holds the reply, the user
    message and the classifier's verdict on the reply; the records of the
    other agents and the message log of the project are untouched, and the
    stored active agent is the agent that answered. *)
Theorem turn_writes_one_record now o project_id text outcome project_data current :
  Storage.get_project (storage o) project_id = Ok project_data →
  active_agent project_data = Some current →
  ∃ o' r project_data' record,
    route_message now o project_id text outcome = (o', Ok r) ∧
    Storage.get_project (storage o') project_id = Ok project_data' ∧
    active_agent project_data' = Some (route_agent r) ∧
    messages project_data' = messages project_data ∧
    requirements project_data' !! route_agent r = Some record ∧
    (∀ other, other ≠ route_agent r →
              requirements project_data' !! other = requirements project_data !! other) ∧
    full_response record = route_message_text r ∧
    user_message record = text ∧
    has_substance record
    = _has_substantial_content (route_message_text r) (route_agent r).
Proof.
  intros Hget Hcurrent.
  destruct (route_message_project now o project_id text outcome _ Hget)
    as (o' & next & Hroute & _ & _ & Hget').
  eexists o', _, _, _. split; [exact Hroute |]. split; [exact Hget' |].
  rewrite Hcurrent. simpl.
  destruct (String.eqb_spec next current) as [-> | Hne]; simpl;
    rewrite lookup_insert_eq; split_and!; try done;
    intros other Hother; by rewrite lookup_insert_ne.
Qed.

Lemma turn_writes_one_record_witness :
  Storage.get_project
    (storage (Sample.orchestrator (Sample.project Sample.two_records "ux_architect")))
    "p1"
  = Ok (Sample.project Sample.two_records "ux_architect") ∧
  active_agent (Sample.project Sample.two_records "ux_architect") = Some "ux_architect" ∧
  ∃ o' r project_data' record,
    route_message 7
      (Sample.orchestrator (Sample.project Sample.two_records "ux_architect"))
      "p1" "a dark colour theme"
      (Returns {| success := Some true;
                  response := Some "A dark theme with one accent colour." |})
    = (o', Ok r) ∧
    Storage.get_project (storage o') "p1" = Ok project_data' ∧
    active_agent project_data' = Some (route_agent r) ∧
    messages project_data' = messages (Sample.project Sample.two_records "ux_architect") ∧
    requirements project_data' !! route_agent r = Some record ∧
    (∀ other, other ≠ route_agent r →
              requirements project_data' !! other = Sample.two_records !! other) ∧
    full_response record = route_message_text r ∧
    user_message record = "a dark colour theme" ∧
    has_substance record
    = _has_substantial_content (route_message_text r) (route_agent r).
Proof.
  split; [reflexivity |]. split; [reflexivity |].
  apply (turn_writes_one_record 7
           (Sample.orchestrator (Sample.project Sample.two_records "ux_architect"))
           "p1" "a dark colour theme"
           (Returns {| success := Some true;
                       response := Some "A dark theme with one accent colour." |})
           (Sample.project Sample.two_records "ux_architect") "ux_architect");
    reflexivity.
Defined.

(** X14. Starting a conversation on an existing project sets the active
    agent to [requirements_evolver] and the progress set of the project to
    the empty set, and keeps the requirement records and the message log. *)
Theorem start_conversation_keeps_records now o project_id project_data :
  Storage.get_project (storage o) project_id = Ok project_data →
  ∃ o' project_data',
    start_conversation now o project_id = (o', Ok ()) ∧
    Storage.get_project (storage o') project_id = Ok project_data' ∧
    active_agent project_data' = Some "requirements_evolver" ∧
    requirements project_data' = requirements project_data ∧
    messages project_data' = messages project_data ∧
    agent_progress o' !! project_id = Some ∅.
Proof.
  intros Hget. unfold start_conversation.
  destruct (set_active_agent_ok now (storage o) project_id "requirements_evolver" _ Hget)
    as (st1 & -> & Hget1).
  eexists _, _. split; [reflexivity |]. split; [exact Hget1 |]. simpl.
  by rewrite lookup_insert_eq.
Qed.

Lemma start_conversation_keeps_records_witness :
  Storage.get_project
    (storage (Sample.orchestrator (Sample.project Sample.two_records "ux_architect")))
    "p1"
  = Ok (Sample.project Sample.two_records "ux_architect") ∧
  ∃ o' project_data',
    start_conversation 7
      (Sample.orchestrator (Sample.project Sample.two_records "ux_architect")) "p1"
    = (o', Ok ()) ∧
    Storage.get_project (storage o') "p1" = Ok project_data' ∧
    active_agent project_data' = Some "requirements_evolver" ∧
    requirements project_data' = Sample.two_records ∧
    messages project_data' = [] ∧
    agent_progress o' !! "p1" = Some ∅.
Proof.
  split; [reflexivity |].
  apply (start_conversation_keeps_records 7
           (Sample.orchestrator (Sample.project Sample.two_records "ux_architect"))
           "p1" (Sample.project Sample.two_records "ux_architect")).
  reflexivity.
Defined.

(** X15. On a project that does not exist, a turn, the start of a
    conversation, the readiness check and the three writing operations of
    the store raise [FileNotFoundError] and leave the orchestrator and the
    store exactly as they were. *)
Theorem missing_project_changes_nothing now o project_id text outcome updates
    agent_name record :
  projects (storage o) !! project_id = None →
  route_message now o project_id text outcome
  = (o, Raise (FileNotFoundError project_id)) ∧
  start_conversation now o project_id = (o, Raise (FileNotFoundError project_id)) ∧
  can_generate_code o project_id = Raise (FileNotFoundError project_id) ∧
  Storage.update_project now (storage o) project_id updates
  = (storage o, Raise (FileNotFoundError project_id)) ∧
  Storage.update_requirements now (storage o) project_id agent_name record
  = (storage o, Raise (FileNotFoundError project_id)) ∧
  Storage.set_active_agent now (storage o) project_id agent_name
  = (storage o, Raise (FileNotFoundError project_id)).
Proof.
  intros Hmissing.
  assert (Hget : Storage.get_project (storage o) project_id
                 = Raise (FileNotFoundError project_id)).
  { unfold Storage.get_project. by rewrite Hmissing. }
  unfold route_message, start_conversation, can_generate_code,
    Storage.set_active_agent, Storage.update_requirements, Storage.update_project.
  rewrite Hget. simpl. by rewrite set_storage_same.
Qed.

Lemma missing_project_changes_nothing_witness :
  projects (storage (Sample.orchestrator Sample.fresh)) !! "p2" = None ∧
  route_message 7 (Sample.orchestrator Sample.fresh) "p2" "hello" Sample.timeout
  = (Sample.orchestrator Sample.fresh, Raise (FileNotFoundError "p2")) ∧
  can_generate_code (Sample.orchestrator Sample.fresh) "p2"
  = Raise (FileNotFoundError "p2").
Proof.
  assert (Hmissing : projects (storage (Sample.orchestrator Sample.fresh)) !! "p2" = None)
    by reflexivity.
  destruct (missing_project_changes_nothing 7 (Sample.orchestrator Sample.fresh) "p2"
              "hello" Sample.timeout (Storage.with_active_agent "devops") "devops"
              (Sample.requirement "devops" true) Hmissing)
    as (Hroute & _ & Hcheck & _).
  split; [exact Hmissing |]. split; [exact Hroute | exact Hcheck].
Defined.

Section StorageMore.

Lemma get_session_log now st pid :
  session_messages (Storage._get_session now st pid).2 = Spec.session_log st pid ∧
  projects (Storage._get_session now st pid).1 = projects st.
Proof.
  unfold Storage._get_session, Spec.session_log.
  by destruct (sessions st !! pid).
Qed.

Lemma session_add_message_below now mid s role text agent :
  (length (session_messages s) < 50)%nat →
  Session.add_message settings.SESSION_CONFIG now mid s role text agent
  = ({| session_project_id := session_project_id s;
        session_messages := session_messages s ++ [mkTurn role text agent now (Some mid)];
        agent_states := agent_states s;
        last_activity := now |}, Ok ()).
Proof.
  intros Hlen. unfold Session.add_message.
  rewrite compact_context_below; [done |].
  simpl. rewrite length_app. simpl. lia.
Qed.

End StorageMore.

(** [LocalStorage.add_message] below the cap of the session log. *)
Lemma storage_add_message_below now mid st project_id project_data role text agent :
  Storage.get_project st project_id = Ok project_data →
  (length (Spec.session_log st project_id) < 50)%nat →
  ∃ st' project_data',
    Storage.add_message settings.SESSION_CONFIG now mid st project_id role text agent
    = (st', Ok ()) ∧
    Storage.get_project st' project_id = Ok project_data' ∧
    messages project_data'
    = (messages project_data ++ [mkTurn role text agent now None])%list ∧
    requirements project_data' = requirements project_data ∧
    active_agent project_data' = active_agent project_data ∧
    Spec.session_log st' project_id
    = (Spec.session_log st project_id ++ [mkTurn role text agent now (Some mid)])%list.
Proof.
  intros Hget Hlen. unfold Storage.add_message.
  destruct (get_session_log now st project_id) as [Hlog Hprojects].
  pose proof (get_project_get_session now st project_id project_id) as Hsame.
  destruct (Storage._get_session now st project_id) as [st1 session].
  simpl in Hlog, Hprojects, Hsame.
  rewrite session_add_message_below by (by rewrite Hlog).
  match goal with
  | |- context [Storage.get_project ?st3 project_id] =>
      assert (Hget3 : Storage.get_project st3 project_id = Ok project_data
                      ∧ Spec.session_log st3 project_id
                        = (Spec.session_log st project_id
                           ++ [mkTurn role text agent now (Some mid)])%list)
  end.
  { rewrite <- Hlog. unfold Spec.session_log.
    destruct agent as [a |]; [destruct (PyStr.truthy a) |];
      (split; [by rewrite ?get_project_set_session, Hsame |]);
      cbn [Storage.set_session sessions]; rewrite lookup_insert_eq;
      by rewrite ?update_agent_state_messages. }
  destruct Hget3 as [Hget3 Hlog3]. rewrite Hget3.
  eexists _, _. split; [reflexivity |].
  split; [apply get_project_set_project |]. simpl. by split_and!.
Qed.

(** X16. The store keeps one record per agent and the last write wins:
    after two writes the second record is the one of its agent, the first
    is still there if it was written for another agent and gone if it was
    written for the same, and every other agent's record is untouched. *)
Theorem last_write_wins now now' st project_id project_data a b r1 r2 :
  Storage.get_project st project_id = Ok project_data →
  ∃ st1 st2 project_data',
    Storage.update_requirements now st project_id a r1 = (st1, Ok ()) ∧
    Storage.update_requirements now' st1 project_id b r2 = (st2, Ok ()) ∧
    Storage.get_project st2 project_id = Ok project_data' ∧
    requirements project_data' !! b = Some r2 ∧
    (a ≠ b → requirements project_data' !! a = Some r1) ∧
    (∀ c, c ≠ a → c ≠ b →
          requirements project_data' !! c = requirements project_data !! c).
Proof.
  intros Hget.
  destruct (update_requirements_ok now st project_id a r1 _ Hget) as (st1 & Hw1 & Hget1).
  destruct (update_requirements_ok now' st1 project_id b r2 _ Hget1)
    as (st2 & Hw2 & Hget2).
  eexists st1, st2, _. split; [exact Hw1 |]. split; [exact Hw2 |].
  split; [exact Hget2 |]. simpl. split_and!.
  - by rewrite lookup_insert_eq.
  - intros Hne. by rewrite lookup_insert_ne, lookup_insert_eq.
  - intros c Hca Hcb. by rewrite !lookup_insert_ne.
Qed.

Lemma last_write_wins_witness :
  Storage.get_project (storage (Sample.orchestrator Sample.fresh)) "p1" = Ok Sample.fresh ∧
  ∃ st1 st2 project_data',
    Storage.update_requirements 7 (storage (Sample.orchestrator Sample.fresh)) "p1"
      "ui_designer" (Sample.requirement "ui_designer" true) = (st1, Ok ()) ∧
    Storage.update_requirements 8 st1 "p1"
      "ui_designer" (Sample.requirement "ui_designer" false) = (st2, Ok ()) ∧
    Storage.get_project st2 "p1" = Ok project_data' ∧
    requirements project_data' !! "ui_designer"
    = Some (Sample.requirement "ui_designer" false) ∧
    ("ui_designer" ≠ "ui_designer" →
     requirements project_data' !! "ui_designer"
     = Some (Sample.requirement "ui_designer" true)) ∧
    (∀ c, c ≠ "ui_designer" → c ≠ "ui_designer" →
          requirements project_data' !! c = requirements Sample.fresh !! c).
Proof.
  split; [reflexivity |].
  apply (last_write_wins 7 8 (storage (Sample.orchestrator Sample.fresh)) "p1"
           Sample.fresh "ui_designer" "ui_designer"
           (Sample.requirement "ui_designer" true)
           (Sample.requirement "ui_designer" false)).
  reflexivity.
Defined.

(** X17. While the session of a project holds fewer than 50 turns,
    storing a message of an existing project succeeds and appends the turn
    at the end of both logs, the session log and the message log of the
    project file, and changes neither the requirement records nor the
    active agent. *)
Theorem add_message_appends now mid st project_id project_data role text agent :
  Storage.get_project st project_id = Ok project_data →
  (length (Spec.session_log st project_id) < 50)%nat →
  ∃ st' project_data',
    Storage.add_message settings.SESSION_CONFIG now mid st project_id role text agent
    = (st', Ok ()) ∧
    Storage.get_project st' project_id = Ok project_data' ∧
    messages project_data'
    = (messages project_data ++ [mkTurn role text agent now None])%list ∧
    requirements project_data' = requirements project_data ∧
    active_agent project_data' = active_agent project_data ∧
    Spec.session_log st' project_id
    = (Spec.session_log st project_id ++ [mkTurn role text agent now (Some mid)])%list.
Proof. apply storage_add_message_below. Qed.

Lemma add_message_appends_witness :
  Storage.get_project (storage (Sample.orchestrator Sample.fresh)) "p1" = Ok Sample.fresh ∧
  (length (Spec.session_log (storage (Sample.orchestrator Sample.fresh)) "p1") < 50)%nat ∧
  ∃ st' project_data',
    Storage.add_message settings.SESSION_CONFIG 7 "0a1b2c3d"
      (storage (Sample.orchestrator Sample.fresh)) "p1" "user" "hello" None
    = (st', Ok ()) ∧
    Storage.get_project st' "p1" = Ok project_data' ∧
    messages project_data'
    = (messages Sample.fresh ++ [mkTurn "user" "hello" None 7 None])%list ∧
    requirements project_data' = requirements Sample.fresh ∧
    active_agent project_data' = active_agent Sample.fresh ∧
    Spec.session_log st' "p1"
    = (Spec.session_log (storage (Sample.orchestrator Sample.fresh)) "p1"
       ++ [mkTurn "user" "hello" None 7 (Some "0a1b2c3d")])%list.
Proof.
  assert (Hlen : (length (Spec.session_log (storage (Sample.orchestrator Sample.fresh))
                            "p1") < 50)%nat) by (vm_compute; lia).
  split; [reflexivity |]. split; [exact Hlen |].
  apply (add_message_appends 7 "0a1b2c3d" (storage (Sample.orchestrator Sample.fresh))
           "p1" Sample.fresh "user" "hello" None eq_refl Hlen).
Defined.

(** [LocalStorage.add_message] once the session log has reached the cap. *)
Lemma storage_add_message_at_cap now mid st project_id role text agent :
  (50 ≤ length (Spec.session_log st project_id))%nat →
  ∃ st',
    Storage.add_message settings.SESSION_CONFIG now mid st project_id role text agent
    = (st', Raise (KeyError "compaction_strategy")) ∧
    projects st' = projects st ∧
    length (Spec.session_log st' project_id)
    = S (length (Spec.session_log st project_id)).
Proof.
  intros Hlen. unfold Storage.add_message.
  destruct (get_session_log now st project_id) as [Hlog Hprojects].
  destruct (Storage._get_session now st project_id) as [st1 session].
  simpl in Hlog, Hprojects. rewrite <- Hlog in Hlen.
  destruct (add_message_at_cap now mid session role text agent Hlen)
    as (s' & -> & Hgrown).
  eexists. split; [reflexivity |]. split; [exact Hprojects |].
  unfold Spec.session_log at 1. simpl. by rewrite lookup_insert_eq, Hgrown, Hlog.
Qed.



(** [ADKSession.add_message] once the log has reached the cap: the turn
    is appended and the compaction raises. *)
Lemma session_add_message_at_cap now mid s role text agent :
  (50 ≤ length (session_messages s))%nat →
  Session.add_message settings.SESSION_CONFIG now mid s role text agent
  = ({| session_project_id := session_project_id s;
        session_messages := session_messages s ++ [mkTurn role text agent now (Some mid)];
        agent_states := agent_states s;
        last_activity := now |}, Raise (KeyError "compaction_strategy")).
Proof.
  intros Hlen. unfold Session.add_message.
  rewrite compact_context_above; [done |].
  simpl. rewrite length_app. simpl. lia.
Qed.

(** X19. Storing a message for a project that does not exist always
    raises and writes no project file: [FileNotFoundError] while the
    session of that identifier holds fewer than 50 turns, [KeyError] for
    [compaction_strategy] once it holds 50 or more. In both cases it has
    already logged the turn in the session of that identifier, which it
    creates when there is none. *)
Theorem add_message_missing_project now mid st project_id role text agent :
  projects st !! project_id = None →
  ∃ st',
    Storage.add_message settings.SESSION_CONFIG now mid st project_id role text agent
    = (st', Raise (if (length (Spec.session_log st project_id) <? 50)%nat
                   then FileNotFoundError project_id
                   else KeyError "compaction_strategy")) ∧
    projects st' = projects st ∧
    is_Some (sessions st' !! project_id) ∧
    Spec.session_log st' project_id
    = (Spec.session_log st project_id ++ [mkTurn role text agent now (Some mid)])%list.
Proof.
  intros Hmissing. unfold Storage.add_message.
  destruct (get_session_log now st project_id) as [Hlog Hprojects].
  destruct (Storage._get_session now st project_id) as [st1 session].
  simpl in Hlog, Hprojects. rewrite <- Hlog.
  destruct (length (session_messages session) <? 50)%nat eqn:Hlen.
  - apply Nat.ltb_lt in Hlen. rewrite session_add_message_below by done.
    match goal with
    | |- context [Storage.get_project ?st3 project_id] =>
        assert (Hst3 : projects st3 = projects st
                       ∧ is_Some (sessions st3 !! project_id)
                       ∧ Spec.session_log st3 project_id
                         = (session_messages session
                            ++ [mkTurn role text agent now (Some mid)])%list)
    end.
    { unfold Spec.session_log.
      destruct agent as [a |]; [destruct (PyStr.truthy a) |];
        (split; [exact Hprojects |]);
        cbn [Storage.set_session sessions]; rewrite lookup_insert_eq;
        (split; [by eexists |]); by rewrite ?update_agent_state_messages. }
    destruct Hst3 as (Hprojects3 & Hsession3 & Hlog3).
    unfold Storage.get_project. rewrite Hprojects3, Hmissing. by eexists.
  - apply Nat.ltb_ge in Hlen. rewrite session_add_message_at_cap by done.
    eexists. split; [reflexivity |]. split; [exact Hprojects |].
    unfold Spec.session_log. cbn [Storage.set_session sessions].
    rewrite lookup_insert_eq. split; [by eexists | done].
Qed.

Lemma add_message_missing_project_witness :
  projects (storage (Sample.orchestrator Sample.fresh)) !! "p2" = None ∧
  ∃ st',
    Storage.add_message settings.SESSION_CONFIG 7 "0a1b2c3d"
      (storage (Sample.orchestrator Sample.fresh)) "p2" "user" "hello" None
    = (st', Raise (if (length (Spec.session_log
                                 (storage (Sample.orchestrator Sample.fresh)) "p2")
                       <? 50)%nat
                   then FileNotFoundError "p2"
                   else KeyError "compaction_strategy")) ∧
    projects st' = projects (storage (Sample.orchestrator Sample.fresh)) ∧
    is_Some (sessions st' !! "p2") ∧
    Spec.session_log st' "p2"
    = (Spec.session_log (storage (Sample.orchestrator Sample.fresh)) "p2"
       ++ [mkTurn "user" "hello" None 7 (Some "0a1b2c3d")])%list.
Proof.
  split; [reflexivity |].
  apply (add_message_missing_project 7 "0a1b2c3d"
           (storage (Sample.orchestrator Sample.fresh)) "p2" "user" "hello" None
           eq_refl).
Defined.

(** X20. Creating a project under an unused identifier and cleaning it up
    again gives back the store as it was; after the clean-up the project
    cannot be read and has no session. *)
Theorem create_then_cleanup_restores now st project_id name :
  projects st !! project_id = None →
  sessions st !! project_id = None →
  Storage.cleanup_project (Storage.create_project now project_id st name).1 project_id
  = st ∧
  Storage.get_project st project_id = Raise (FileNotFoundError project_id) ∧
  Storage.get_session_stats st project_id = None.
Proof.
  intros Hproject Hsession.
  unfold Storage.create_project, Storage._get_session, Storage.cleanup_project,
    Storage.get_project, Storage.get_session_stats.
  rewrite Hsession, Hproject. simpl. split; [| done].
  rewrite !delete_insert_id by done. by destruct st.
Qed.

Lemma create_then_cleanup_restores_witness :
  projects (storage (Sample.orchestrator Sample.fresh)) !! "p2" = None ∧
  sessions (storage (Sample.orchestrator Sample.fresh)) !! "p2" = None ∧
  Storage.cleanup_project
    (Storage.create_project 7 "p2" (storage (Sample.orchestrator Sample.fresh))
       "second").1 "p2"
  = storage (Sample.orchestrator Sample.fresh).
Proof.
  split; [reflexivity |]. split; [reflexivity |].
  apply (create_then_cleanup_restores 7 (storage (Sample.orchestrator Sample.fresh))
           "p2" "second"); reflexivity.
Defined.

(** X21. A project that has just been created can be read, starts at
    [requirements_evolver] with no record and no message and has a
    session; the readiness gate reports it not ready, with no substantial
    agent and the request to describe the requirements first. *)
Theorem created_project_is_not_ready now o project_id project_name :
  ∃ project_data status,
    Storage.get_project (Storage.create_project now project_id (storage o) project_name).1
      project_id = Ok project_data ∧
    name project_data = project_name ∧
    active_agent project_data = Some "requirements_evolver" ∧
    requirements project_data = ∅ ∧
    messages project_data = [] ∧
    is_Some (Storage.get_session_stats
               (Storage.create_project now project_id (storage o) project_name).1 project_id) ∧
    Orchestrator.can_generate_code
      (Orchestrator.set_storage o
         (Storage.create_project now project_id (storage o) project_name).1) project_id
    = Ok status ∧
    can_generate status = false ∧
    substantial_agents status = 0%nat ∧
    status_message status = "Please describe your project requirements first.".
Proof.
  unfold Storage.create_project, Storage._get_session, Storage.get_session_stats,
    Orchestrator.can_generate_code.
  destruct (sessions (storage o) !! project_id) as [s |] eqn:Hs; simpl;
    rewrite ?Hs, ?lookup_insert_eq; unfold Storage.get_project; simpl;
    rewrite lookup_insert_eq; simpl; rewrite map_to_list_empty; simpl;
    eexists _, _; split_and!; try reflexivity; eauto.
Qed.

(** X22. Every update of an agent's state in a session counts one
    interaction for that agent, the first update starting from the default
    state with count 0, stamps the time of the update, and leaves the
    states of the other agents and the turn log as they were. *)
Theorem update_agent_state_counts now s agent_name updates :
  (∀ state, interaction_count (updates state) = interaction_count state) →
  Spec.interactions (Session.update_agent_state now s agent_name updates) agent_name
  = S (Spec.interactions s agent_name) ∧
  (∃ state,
     agent_states (Session.update_agent_state now s agent_name updates) !! agent_name
     = Some state ∧ last_interaction state = Some now) ∧
  (∀ other, other ≠ agent_name →
     agent_states (Session.update_agent_state now s agent_name updates) !! other
     = agent_states s !! other) ∧
  session_messages (Session.update_agent_state now s agent_name updates)
  = session_messages s.
Proof.
  intros Hkeeps.
  unfold Spec.interactions, Session.update_agent_state, Session.get_agent_state.
  destruct (agent_states s !! agent_name) as [state |] eqn:Hstate; simpl;
    rewrite lookup_insert_eq; simpl; rewrite Hkeeps; split_and!; eauto;
    intros other Hother; by rewrite !lookup_insert_ne.
Qed.

Lemma update_agent_state_counts_witness :
  (∀ state, interaction_count (Storage.set_activated_at 7 state)
            = interaction_count state) ∧
  Spec.interactions
    (Session.update_agent_state 7 (Session.init "p1" 0) "ux_architect"
       (Storage.set_activated_at 7)) "ux_architect"
  = S (Spec.interactions (Session.init "p1" 0) "ux_architect").
Proof.
  assert (Hkeeps : ∀ state, interaction_count (Storage.set_activated_at 7 state)
                            = interaction_count state) by reflexivity.
  split; [exact Hkeeps |].
  exact (proj1 (update_agent_state_counts 7 (Session.init "p1" 0) "ux_architect"
                  (Storage.set_activated_at 7) Hkeeps)).
Defined.

(** ** The agent manager *)

Section ManagerMore.

Import Orchestrator.




Lemma rstrip_cons c s :
  PyStr.rstrip (String c s)
  = match PyStr.rstrip s with
    | EmptyString => if PyStr.is_space c then EmptyString else String c EmptyString
    | r => String c r
    end.
Proof. reflexivity. Qed.


Lemma lstrip_solid s : Spec.starts_solid s = true → PyStr.lstrip s = s.
Proof.
  destruct s as [| c s]; [done |]. simpl. intros Hc.
  apply negb_true_iff in Hc. by rewrite Hc.
Qed.




Lemma rstrip_app_len s t :
  (PyStr.len (PyStr.rstrip s) ≤ PyStr.len (PyStr.rstrip (s ++ t)))%nat.
Proof.
  unfold PyStr.len. induction s as [| c s IH]; [simpl; lia |].
  change (String c s ++ t) with (String c (s ++ t)). rewrite !rstrip_cons.
  destruct (PyStr.rstrip (s ++ t)) as [| c2 r2]; destruct (PyStr.rstrip s) as [| c1 r1];
    simpl in *; try lia; destruct (PyStr.is_space c); simpl; lia.
Qed.

Lemma strip_app_len s t :
  Spec.starts_solid s = true →
  (PyStr.len (PyStr.rstrip s) ≤ PyStr.len (PyStr.strip (s ++ t)))%nat.
Proof.
  intros Hsolid. unfold PyStr.strip. rewrite lstrip_solid; [apply rstrip_app_len |].
  by destruct s.
Qed.

End ManagerMore.




(** X25. Running a chain of agents in sequence returns one result per
    entry of the chain, in the order of the chain, also for entries that
    are not registered and for runs that fail. *)
Theorem sequential_run_one_result_per_agent manager run agent_chain :
  map result_agent (ADK.run_sequential_agents manager run agent_chain) = agent_chain.
Proof.
  unfold ADK.run_sequential_agents. generalize 0%nat.
  induction agent_chain as [| agent_name rest IH]; intros i; simpl; [done |].
  rewrite IH. by destruct (ADK.registered manager agent_name), (run i).
Qed.

(** X26. When the run of a registered early-stage agent fails, the reply
    that the orchestrator builds from the manager's result is an apology
    of at least 80 characters, and the classifier gives it substance: the
    failed turn is stored as a substantial contribution of that agent. *)
Theorem failed_run_counts_as_substance manager agent_name str_e :
  ADK.registered manager agent_name = true →
  In agent_name early_agents →
  Spec.executor_failed (ADK.run_agent_with_instructions manager agent_name (Fails str_e)) ∧
  Spec.is_apology
    (_run_single_agent (ADK.run_agent_with_instructions manager agent_name (Fails str_e)))
    ("Error: " ++ str_e) ∧
  _has_substantial_content
    (_run_single_agent (ADK.run_agent_with_instructions manager agent_name (Fails str_e)))
    agent_name = true.
Proof.
  intros Hregistered Hearly. unfold ADK.run_agent_with_instructions.
  rewrite Hregistered. cbn [negb _run_single_agent success response default].
  split; [done |]. split.
  - eexists. split; [right; left; reflexivity | reflexivity].
  - apply early_reply_of_80; [done |]. unfold Spec.trimmed_length.
    eapply Nat.le_trans;
      [| exact (strip_app_len
                  "I encountered an issue while processing your request. Please try again. Error: Error:"
                  (String " " str_e) eq_refl)].
    vm_compute. lia.
Qed.

Lemma failed_run_counts_as_substance_witness :
  ADK.registered ADK.init "ux_architect" = true ∧
  In "ux_architect" early_agents ∧
  _has_substantial_content
    (_run_single_agent
       (ADK.run_agent_with_instructions ADK.init "ux_architect" (Fails "timed out")))
    "ux_architect" = true.
Proof.
  assert (Hregistered : ADK.registered ADK.init "ux_architect" = true)
    by (vm_compute; reflexivity).
  assert (Hearly : In "ux_architect" early_agents) by (simpl; tauto).
  split; [exact Hregistered |]. split; [exact Hearly |].
  exact (proj2 (proj2 (failed_run_counts_as_substance ADK.init "ux_architect"
                         "timed out" Hregistered Hearly))).
Defined.

(** ** The server *)

Section ServerMore.

Import Orchestrator.


Lemma get_project_projects st st' pid :
  projects st = projects st' → Storage.get_project st pid = Storage.get_project st' pid.
Proof. unfold Storage.get_project. by intros ->. Qed.


End ServerMore.



(** X28. Once the server session of a project holds 50 turns or more, a
    user message is answered with one error, which carries the [KeyError]
    for [compaction_strategy]: no agent is run, and the orchestrator and
    the project files are left as they were. *)
Theorem server_blocked_at_cap now mid_user mid_agent sv pid message outcome :
  PyStr.truthy pid = true →
  (50 ≤ length (Spec.session_log (Server.view sv) pid))%nat →
  ∃ sv',
    Server.handle_user_message now mid_user mid_agent sv (Some pid) message outcome
    = (sv', [SentError "ADK Failed to process message: "
               (Some (KeyError "compaction_strategy"))]) ∧
    orchestrator sv' = orchestrator sv.
Proof.
  intros Hpid Hlog. unfold Server.handle_user_message.
  change (default EmptyString (Some pid)) with pid. rewrite Hpid. cbn [negb].
  destruct (storage_add_message_at_cap now mid_user (Server.view sv) pid "user"
              (default EmptyString message) None Hlog)
    as (st1 & -> & Hprojects & _).
  cbv beta iota zeta. eexists. split; [reflexivity |].
  unfold Server.put, Orchestrator.set_storage. simpl. rewrite Hprojects. simpl.
  by destruct sv as [[[projects sessions] chain progress] cache].
Qed.

Lemma server_blocked_at_cap_witness :
  PyStr.truthy "p1" = true ∧
  (50 ≤ length (Spec.session_log
                  (Server.view
                     (mkServer (Sample.orchestrator Sample.fresh)
                        {[ "p1" := Spec.append_n settings.SESSION_CONFIG 50
                                     (Session.init "p1" 0) ]})) "p1"))%nat ∧
  ∃ sv',
    Server.handle_user_message 7 "0a1b2c3d" "4e5f6a7b"
      (mkServer (Sample.orchestrator Sample.fresh)
         {[ "p1" := Spec.append_n settings.SESSION_CONFIG 50 (Session.init "p1" 0) ]})
      (Some "p1") (Some "hello") Sample.timeout
    = (sv', [SentError "ADK Failed to process message: "
               (Some (KeyError "compaction_strategy"))]) ∧
    orchestrator sv' = Sample.orchestrator Sample.fresh.
Proof.
  assert (Hlog :
    (50 ≤ length (Spec.session_log
                    (Server.view
                       (mkServer (Sample.orchestrator Sample.fresh)
                          {[ "p1" := Spec.append_n settings.SESSION_CONFIG 50
                                       (Session.init "p1" 0) ]})) "p1"))%nat)
    by (vm_compute; lia).
  split; [reflexivity |]. split; [exact Hlog |].
  apply (server_blocked_at_cap 7 "0a1b2c3d" "4e5f6a7b" _ "p1" (Some "hello")
           Sample.timeout eq_refl Hlog).
Defined.

(** ** Planning the project structure *)

Section PlanningMore.

Import Integration.

Lemma find_group_entry (groups : dict (list string)) f group_name conflict_group :
  find_group groups f = Some (group_name, conflict_group) →
  In (group_name, conflict_group) groups ∧ In f conflict_group.
Proof.
  induction groups as [| [n g] rest IH]; simpl; [done |].
  destruct (PyStr.mem f g) eqn:Hmem.
  - intros [= <- <-]. split; [by left | by apply mem_true].
  - intros Hrest. destruct (IH Hrest). auto.
Qed.

Lemma find_group_found (groups : dict (list string)) f group_name conflict_group :
  In (group_name, conflict_group) groups → In f conflict_group →
  is_Some (find_group groups f).
Proof.
  induction groups as [| [n g] rest IH]; simpl; [done |].
  intros [[= -> ->] | Hrest] Hf.
  - by rewrite (proj2 (mem_true _ _) Hf).
  - destruct (PyStr.mem f g); [done | by apply IH].
Qed.

Lemma preferred_in_group group_name conflict_group :
  In (group_name, conflict_group) conflict_groups →
  In (preferred_path conflict_group) conflict_group.
Proof.
  simpl. intros [[= <- <-] | [[= <- <-] | [[= <- <-] | []]]]; vm_compute; tauto.
Qed.

(** A group of the table is known by its name and by its preferred path. *)
Lemma group_determined n g n' g' :
  In (n, g) conflict_groups → In (n', g') conflict_groups →
  n = n' ∨ preferred_path g = preferred_path g' →
  n = n' ∧ g = g'.
Proof.
  simpl.
  intros [Ha | [Ha | [Ha | []]]] [Hb | [Hb | [Hb | []]]] Hsame;
    injection Ha as <- <-; injection Hb as <- <-;
    try done; destruct Hsame as [Hsame | Hsame]; vm_compute in Hsame; discriminate Hsame.
Qed.

Lemma resolve_loop_grows files resolved used x :
  In x resolved → In x (resolve_loop files resolved used).
Proof.
  revert resolved used. induction files as [| f files IH]; intros resolved used Hx;
    cbn [resolve_loop]; [done |].
  destruct (find_group conflict_groups f) as [[n g] |].
  - destruct (bool_decide (n ∈ used)); apply IH; [done |].
    apply in_or_app. by left.
  - destruct (PyStr.mem f resolved); apply IH; [done |].
    apply in_or_app. by left.
Qed.

Lemma resolved_ok_group resolved used f n g :
  Spec.resolved_ok resolved used →
  find_group conflict_groups f = Some (n, g) →
  n ∉ used →
  Spec.resolved_ok (resolved ++ [preferred_path g]) ({[n]} ∪ used).
Proof.
  intros [Hnd Hused] Hfound Hfresh.
  destruct (find_group_entry _ _ _ _ Hfound) as [Hentry _]. split.
  - apply NoDup_app. split; [done |]. split; [| apply NoDup_singleton].
    intros x Hx Hx'. apply list_elem_of_singleton in Hx' as ->.
    apply Hfresh, (Hused n g Hentry). by apply list_elem_of_In.
  - intros n' g' Hentry'. rewrite elem_of_union, elem_of_singleton, in_app_iff.
    rewrite (Hused n' g' Hentry'). simpl. split.
    + intros [-> | Hin]; [| by left].
      right; left. by destruct (group_determined _ _ _ _ Hentry Hentry' (or_introl eq_refl))
        as [_ ->].
    + intros [Hin | [Hsame | []]]; [by right |]. left.
      by destruct (group_determined _ _ _ _ Hentry Hentry' (or_intror Hsame)) as [-> _].
Qed.

Lemma resolved_ok_other resolved used f :
  Spec.resolved_ok resolved used →
  find_group conflict_groups f = None →
  ¬ In f resolved →
  Spec.resolved_ok (resolved ++ [f]) used.
Proof.
  intros [Hnd Hused] Hnone Hfresh. split.
  - apply NoDup_app. split; [done |]. split; [| apply NoDup_singleton].
    intros x Hx Hx'. apply list_elem_of_singleton in Hx' as ->.
    apply Hfresh. by apply list_elem_of_In.
  - intros n g Hentry. rewrite (Hused n g Hentry), in_app_iff. simpl.
    split; [by left |]. intros [Hin | [Heq | []]]; [done |].
    destruct (find_group_found conflict_groups (preferred_path g) n g Hentry
                (preferred_in_group n g Hentry)) as [x Hx].
    rewrite <- Heq, Hnone in Hx. discriminate Hx.
Qed.

Lemma resolve_loop_ok files resolved used :
  Spec.resolved_ok resolved used →
  NoDup (resolve_loop files resolved used) ∧
  ∀ f, In f files →
       match find_group conflict_groups f with
       | Some (_, g) => In (preferred_path g) (resolve_loop files resolved used)
       | None => In f (resolve_loop files resolved used)
       end.
Proof.
  revert resolved used. induction files as [| f files IH]; intros resolved used Hok.
  { split; [apply Hok | intros f []]. }
  cbn [resolve_loop]. destruct (find_group conflict_groups f) as [[n g] |] eqn:Hfound.
  - destruct (find_group_entry _ _ _ _ Hfound) as [Hentry _].
    destruct (bool_decide (n ∈ used)) eqn:Hused.
    + apply bool_decide_eq_true in Hused.
      destruct (IH resolved used Hok) as [Hnd Hall]. split; [done |].
      intros f' [<- | Hin]; [| by apply Hall]. rewrite Hfound.
      apply resolve_loop_grows. by apply (proj2 Hok n g Hentry).
    + apply bool_decide_eq_false in Hused.
      destruct (IH _ _ (resolved_ok_group _ _ _ _ _ Hok Hfound Hused)) as [Hnd Hall].
      split; [done |]. intros f' [<- | Hin]; [| by apply Hall]. rewrite Hfound.
      apply resolve_loop_grows, in_or_app. right. by left.
  - destruct (PyStr.mem f resolved) eqn:Hmem.
    + apply mem_true in Hmem. destruct (IH resolved used Hok) as [Hnd Hall].
      split; [done |]. intros f' [<- | Hin]; [| by apply Hall]. rewrite Hfound.
      by apply resolve_loop_grows.
    + apply mem_false in Hmem.
      destruct (IH _ _ (resolved_ok_other _ _ _ Hok Hfound Hmem)) as [Hnd Hall].
      split; [done |]. intros f' [<- | Hin]; [| by apply Hall]. rewrite Hfound.
      apply resolve_loop_grows, in_or_app. right. by left.
Qed.

Lemma add_missing_ok essentials file_list :
  NoDup file_list →
  NoDup (add_missing essentials file_list) ∧
  (∀ f, In f file_list → In f (add_missing essentials file_list)) ∧
  (∀ e, In e essentials → In e (add_missing essentials file_list)).
Proof.
  revert file_list. induction essentials as [| e rest IH]; intros file_list Hnd; simpl.
  { split; [done |]. split; [done | intros e []]. }
  destruct (PyStr.mem e file_list) eqn:Hmem.
  - apply mem_true in Hmem. destruct (IH file_list Hnd) as (Hnd' & Hkeep & Hess).
    split; [done |]. split; [done |]. intros e' [<- | Hin]; auto.
  - apply mem_false in Hmem.
    assert (Hnd1 : NoDup (file_list ++ [e])).
    { apply NoDup_app. split; [done |]. split; [| apply NoDup_singleton].
      intros x Hx Hx'. apply list_elem_of_singleton in Hx' as ->.
      apply Hmem. by apply list_elem_of_In. }
    destruct (IH _ Hnd1) as (Hnd' & Hkeep & Hess).
    split; [done |]. split.
    + intros f Hf. apply Hkeep, in_or_app. by left.
    + intros e' [<- | Hin]; [| by apply Hess]. apply Hkeep, in_or_app. right. by left.
Qed.

Lemma extract_file_list_ok response :
  NoDup (_extract_file_list_deduplicated response) ∧
  ∀ e, In e _get_essential_structure → In e (_extract_file_list_deduplicated response).
Proof.
  unfold _extract_file_list_deduplicated, _resolve_file_conflicts.
  set (collected := collect_paths _ _).
  destruct (resolve_loop_ok collected [] ∅) as [Hnd _].
  { split; [apply NoDup_nil_2 |]. intros n g Hentry. split; [set_solver | intros []]. }
  destruct (add_missing_ok _get_essential_structure _ Hnd) as (Hnd' & _ & Hess).
  done.
Qed.

End PlanningMore.

(** X29. Resolving file conflicts returns a list without duplicates in
    which every conflict group met in the input is represented by its
    preferred path; every input path outside the conflict groups is
    kept. *)
Theorem resolve_file_conflicts_collapses file_list :
  NoDup (Integration._resolve_file_conflicts file_list) ∧
  ∀ f, In f file_list →
       match Integration.find_group Integration.conflict_groups f with
       | Some (_, conflict_group) =>
           In (Integration.preferred_path conflict_group)
             (Integration._resolve_file_conflicts file_list)
       | None => In f (Integration._resolve_file_conflicts file_list)
       end.
Proof.
  apply resolve_loop_ok. split; [apply NoDup_nil_2 |].
  intros n g Hentry. split; [set_solver | intros []].
Qed.

(** X30. The project structure planned for a stored project always
    holds the six essential files and never a file twice, whatever the
    code generator answers, also when its run fails or it is not
    registered. *)
Theorem plan_has_essential_files manager run project_data :
  NoDup (Integration.plan_project_structure manager run project_data) ∧
  ∀ e, In e Integration._get_essential_structure →
       In e (Integration.plan_project_structure manager run project_data).
Proof.
  unfold Integration.plan_project_structure.
  destruct (ADK.run_sequential_agents manager run ["code_generator"]) as [| result rest].
  - split; [by apply (bool_decide_unpack _) | done].
  - apply extract_file_list_ok.
Qed.
